(** * Windows-XP desktop: window/drag manager and chat session controller

    A shallow embedding of
      - the DesktopWindow component (DragManager, stopDrag,
        handleMouseMoveForDrag, class DesktopWindow), which the sources
        carry as the second part of src/components/DesktopTaskbar/index.js,
      - src/components/ChatApp/index.js (class ChatApp),
    followed by the properties of the specification that concern them.

    JavaScript objects are mutable and shared by reference; the embedding
    keeps them in explicit stores (a list addressed by index) and passes
    the store through every handler.  Numbers that the code reads from
    mouse events and from the viewport are integers and are modelled by Z;
    Math.min and Math.max are Z.min and Z.max. *)

From Stdlib Require Import ZArith Lia Ascii String.
From stdpp Require Import base option list strings gmap.

Local Open Scope string_scope.

(* ===================================================================== *)
(** ** DesktopWindow: the drag coordinator and the dropdown menus         *)
(* ===================================================================== *)

Module DesktopWindow.

(** The fields of a DesktopWindow element that the drag code touches.
    [offsetX]/[offsetY] are undefined until the first mousedown; they are
    only read while [isDragging] holds, and handleTitleBarMouseDown sets
    them together with that flag.  [style_left]/[style_top] hold the
    number n of the string `${n}px`, None while the property is unset. *)
Record Instance := mkInstance {
  isDragging : bool;
  maxX : Z;
  maxY : Z;
  offsetX : Z;
  offsetY : Z;
  style_left : option Z;
  style_top : option Z;
}.

(** The page: the viewport size, the heap of window elements and the
    singleton
      const DragManager = { currentlyDraggedInstance: null };
    whose field is a reference (an index into [instances]) or null. *)
Record Desktop := mkDesktop {
  innerWidth : Z;
  innerHeight : Z;
  instances : list Instance;
  currentlyDraggedInstance : option nat;
}.

Record MouseMove := mkMouseMove { clientX : Z; clientY : Z }.

Record MouseDown := mkMouseDown {
  tagName : string;          (* event.target.tagName *)
  ev_offsetX : Z;            (* event.offsetX *)
  ev_offsetY : Z;            (* event.offsetY *)
}.

Definition set_instances (l : list Instance) (d : Desktop) : Desktop :=
  mkDesktop (innerWidth d) (innerHeight d) l (currentlyDraggedInstance d).

Definition set_current (c : option nat) (d : Desktop) : Desktop :=
  mkDesktop (innerWidth d) (innerHeight d) (instances d) c.

Definition set_isDragging (b : bool) (w : Instance) : Instance :=
  mkInstance b (maxX w) (maxY w) (offsetX w) (offsetY w)
             (style_left w) (style_top w).

Definition set_position (x y : Z) (w : Instance) : Instance :=
  mkInstance (isDragging w) (maxX w) (maxY w) (offsetX w) (offsetY w)
             (Some x) (Some y).

(** function stopDrag() {
      const instance = DragManager.currentlyDraggedInstance;
      if (instance) {
        instance.isDragging = false;
        DragManager.currentlyDraggedInstance = null;
      }
    } *)
Definition stopDrag (d : Desktop) : Desktop :=
  match currentlyDraggedInstance d with
  | Some i =>
      set_current None
        (set_instances (alter (set_isDragging false) i (instances d)) d)
  | None => d
  end.

(** function handleMouseMoveForDrag(event) {
      const instance = DragManager.currentlyDraggedInstance;
      if (!instance || !instance.isDragging) return;
      const { clientX, clientY } = event;
      const { offsetX, offsetY, maxX, maxY, style } = instance;
      const newX = Math.min(clientX - offsetX, maxX - 1);
      const newY = Math.min(Math.max(0, clientY - offsetY), maxY);
      style.left = `${newX}px`;
      style.top = `${newY}px`;
    } *)
Definition newX (ev : MouseMove) (w : Instance) : Z :=
  Z.min (clientX ev - offsetX w) (maxX w - 1).

Definition newY (ev : MouseMove) (w : Instance) : Z :=
  Z.min (Z.max 0 (clientY ev - offsetY w)) (maxY w).

Definition handleMouseMoveForDrag (ev : MouseMove) (d : Desktop) : Desktop :=
  match currentlyDraggedInstance d with
  | None => d
  | Some i =>
      match instances d !! i with
      | None => d             (* a reference never dangles *)
      | Some w =>
          if negb (isDragging w) then d
          else set_instances
                 (<[i := set_position (newX ev w) (newY ev w) w]> (instances d)) d
      end
  end.

(** handleTitleBarMouseDown(event) {
      if (event.target.tagName !== 'BUTTON') {
        this.isDragging = true;
        this.offsetX = event.offsetX;
        this.offsetY = event.offsetY;
        this.maxX = window.innerWidth;
        this.maxY = window.innerHeight - 60;
        DragManager.currentlyDraggedInstance = this;
      }
    } *)
Definition begin_drag (ev : MouseDown) (d : Desktop) (w : Instance) : Instance :=
  mkInstance true (innerWidth d) (innerHeight d - 60)
             (ev_offsetX ev) (ev_offsetY ev) (style_left w) (style_top w).

Definition handleTitleBarMouseDown (this : nat) (ev : MouseDown) (d : Desktop)
  : Desktop :=
  if bool_decide (tagName ev ≠ "BUTTON") then
    set_current (Some this)
      (set_instances (alter (begin_drag ev d) this (instances d)) d)
  else d.

(** The global pointer stream, as the three window-level listeners and the
    per-window title-bar listener see it. *)
Inductive PointerEvent :=
  | TitleBarMouseDown (this : nat) (ev : MouseDown)
  | WindowMouseMove (ev : MouseMove)
  | WindowMouseOut
  | WindowMouseUp.

Definition dispatch (d : Desktop) (e : PointerEvent) : Desktop :=
  match e with
  | TitleBarMouseDown this ev => handleTitleBarMouseDown this ev d
  | WindowMouseMove ev => handleMouseMoveForDrag ev d
  | WindowMouseOut => stopDrag d
  | WindowMouseUp => stopDrag d
  end.

Definition run (es : list PointerEvent) (d : Desktop) : Desktop :=
  foldl dispatch d es.

(** A drag session exists for window [i] when the coordinator points at it
    and its flag is set: exactly the condition under which
    handleMouseMoveForDrag moves a window. *)
Definition drag_active (d : Desktop) (i : nat) (w : Instance) : Prop :=
  currentlyDraggedInstance d = Some i ∧
  instances d !! i = Some w ∧
  isDragging w = true.

(** The position of window [i], when both coordinates have been set. *)
Definition position (d : Desktop) (i : nat) : option (Z * Z) :=
  w ← instances d !! i;
  x ← style_left w;
  y ← style_top w;
  Some (x, y).

(** The frame of a drag: what a sequence of moves leaves alone. *)
Definition same_drag (w w' : Instance) : Prop :=
  maxX w' = maxX w ∧ maxY w' = maxY w ∧
  offsetX w' = offsetX w ∧ offsetY w' = offsetY w.

(** A window element as its class-field initialisers leave it in a
    viewport of the given size (offsets not yet set, read as 0 here). *)
Definition new_window (width height : Z) : Instance :=
  mkInstance false width (height - 60) 0 0 None None.

(** Two example pages: an ordinary viewport with two windows, and a
    viewport lower than the 60 pixels the code reserves for the taskbar
    and the title bar. *)
Definition example_desktop : Desktop :=
  mkDesktop 800 600 [new_window 800 600; new_window 800 600] None.

Definition low_desktop : Desktop :=
  mkDesktop 800 50 [new_window 800 50] None.

Definition example_mousedown : MouseDown := mkMouseDown "DIV" 5 5.

(** *** Dropdown menus of one window *)

(** One `.window__dropdown` of the window's shadow root: the
    style.display of its `.window__dropdown-content` and whether the
    dropdown element carries the class `active`. *)
Record Dropdown := mkDropdown { display : string; active : bool }.

(** The element a click landed on: its class list and, for an element
    inside a dropdown, the index of that dropdown in the order of
    shadowRoot.querySelectorAll('.window__dropdown-content'). *)
Record Target := mkTarget {
  classList : list string;
  dropdown : option nat;
}.

Definition contains (cls : string) (t : Target) : bool :=
  bool_decide (cls ∈ classList t).

Definition closed : Dropdown := mkDropdown "none" false.

(** closeDropdown(dropdownContent) {
      dropdownContent.style.display = 'none';
      dropdownContent.parentNode.classList.remove('active');
    } *)
Definition closeDropdown (i : nat) (l : list Dropdown) : list Dropdown :=
  alter (λ _, closed) i l.

(** closeAllDropdowns(excludeContent = null) {
      allDropdownContents.forEach((dropdownContent) => {
        if (dropdownContent !== excludeContent) {
          dropdownContent.style.display = 'none';
          dropdownContent.parentNode.classList.remove('active');
        }
      });
    } *)
Definition closeAllDropdowns (excludeContent : option nat) (l : list Dropdown)
  : list Dropdown :=
  imap (λ j c, if bool_decide (Some j ≠ excludeContent) then closed else c) l.

(** toggleDropdown(activator) {
      const content = activator.parentNode.querySelector('.window__dropdown-content');
      const isContentVisible = content.style.display === 'block';
      this.closeAllDropdowns(content);
      content.style.display = isContentVisible ? 'none' : 'block';
      activator.parentNode.classList.toggle('active', !isContentVisible);
    }
    None stands for the TypeError of reading `content.style` when the
    activator has no content element next to it. *)
Definition toggleDropdown (i : nat) (l : list Dropdown) : option (list Dropdown) :=
  match l !! i with
  | None => None
  | Some content =>
      let isContentVisible := bool_decide (display content = "block") in
      let l := closeAllDropdowns (Some i) l in
      Some (<[i := mkDropdown (if isContentVisible then "none" else "block")
                              (negb isContentVisible)]> l)
  end.

(** handleControlPanelClick(event) {
      const target = event.target;
      const isActivator = target.classList.contains('window__dropdown-activator');
      const isChoice = target.classList.contains('window__dropdown-choice');
      const isContent = target.classList.contains('window__dropdown-content');
      if (isActivator) { this.toggleDropdown(target); }
      else if (isChoice) { this.closeDropdown(target.parentNode); }
      else if (!isContent) { this.closeAllDropdowns(); }
    } *)
Definition handleControlPanelClick (target : Target) (l : list Dropdown)
  : option (list Dropdown) :=
  let isActivator := contains "window__dropdown-activator" target in
  let isChoice := contains "window__dropdown-choice" target in
  let isContent := contains "window__dropdown-content" target in
  if isActivator then
    i ← dropdown target; toggleDropdown i l
  else if isChoice then
    i ← dropdown target; _ ← l !! i; Some (closeDropdown i l)
  else if negb isContent then
    Some (closeAllDropdowns None l)
  else Some l.

(** A click that throws leaves the menus as they were. *)
Definition click (l : list Dropdown) (target : Target) : list Dropdown :=
  default l (handleControlPanelClick target l).

Definition is_open (c : Dropdown) : Prop := display c = "block".

Definition at_most_one_open (l : list Dropdown) : Prop :=
  ∀ j k cj ck,
    l !! j = Some cj → l !! k = Some ck → is_open cj → is_open ck → j = k.

(** The menu bar of the example in createControlPanel: File, Edit, and a
    third dropdown, the second one open. *)
Definition example_menus : list Dropdown :=
  [mkDropdown "" false; mkDropdown "block" true; mkDropdown "none" false].

End DesktopWindow.

(* ===================================================================== *)
(** ** ChatApp: the chat session controller                               *)
(* ===================================================================== *)

Module Message.

(** A message object as the controller handles it: the value of
    JSON.parse(event.data), an element of the stored log, the synthetic
    notice of handleClose, or the object sendMessage serialises.  A field
    is [Some s] when the object has the string s there and [None] when the
    property is missing or null (the code treats both alike). *)
Record t := mk {
  type : option string;
  data : option string;
  username : option string;
  channel : option string;
  key : option string;
}.

End Message.

Module ChatApp.

(** The JSON object of the browser.  Only its use by the controller is
    modelled: stringify on the message log and on one outbound message,
    parse on a stored log and on the payload of a message event.  [None]
    is a parse on which the caller throws (a SyntaxError, or the TypeError
    of using a value of the wrong shape); a stored text that parses to a
    falsy value is [Some []] (the replay loop is skipped either way). *)
Class JSON := {
  JSON_stringify : list Message.t → string;
  JSON_stringify_message : Message.t → string;
  JSON_parse : string → option (list Message.t);
  JSON_parse_message : string → option Message.t;
}.

Inductive Exn :=
  | Error (msg : string)
  | TypeError
  | SyntaxError.

Inductive Result (A : Type) :=
  | Ok (a : A)
  | Throw (e : Exn)
  | OutOfFuel.
Arguments Ok {A} a.
Arguments Throw {A} e.
Arguments OutOfFuel {A}.

(** WebSocket.readyState: 0, 1, 2, 3. *)
Inductive ReadyState := CONNECTING | OPEN | CLOSING | CLOSED.

Record WebSocket := mkWebSocket { url : string; readyState : ReadyState }.

(** What this.body currently shows (the argument of replaceChildren). *)
Inductive Body := UsernameChoiceMenu | ChannelChoiceMenu | Chat.

(** The nodes createMessageElement builds. *)
Inductive Element :=
  | ServerMessage (textContent : option string)
  | UserMessage (usernameText : string) (contentText : option string).

(** Calls into the browser, in the order the controller makes them. *)
Inductive Effect :=
  | ConsoleLog (s : string)
  | ConsoleError (s : string)
  | NewWebSocket (s : nat)
  | SocketClose (s : nat)
  | SocketSend (s : nat) (payload : string)
  | PreventDefault
  | ReplaceChildren (b : Body)
  | ScrollToBottom
  | ClearInputField.

(** One ChatApp element together with the part of the browser it talks
    to.  [socket] is a reference into [sockets], the heap of WebSocket
    objects ever created; every one of them carries the four listeners
    that connect() registers.  [messageListElement] is the child list of
    the render target, None when the field is null.  [changeChannelButton]
    tells whether the button carries the class `disabled`.  The field
    inputFieldElement, which the setter nulls and nothing reads, and the
    fixed size that renderBody gives the body are left out. *)
Record World := mkWorld {
  _state : option string;
  _username : option string;
  socket : option nat;
  channel : string;
  messages : list Message.t;
  messageListElement : option (list Element);
  changeChannelButton : bool;
  body : option Body;
  localStorage : gmap string string;
  sockets : list WebSocket;
  effects : list Effect;
}.

Definition apiKey : string := "eDBE76deU7L0H9mEBgxUKVR0VCnq0XBd".

Definition with_state (v : option string) (w : World) : World :=
  mkWorld v (_username w) (socket w) (channel w) (messages w)
    (messageListElement w) (changeChannelButton w) (body w)
    (localStorage w) (sockets w) (effects w).
Definition with_username (v : option string) (w : World) : World :=
  mkWorld (_state w) v (socket w) (channel w) (messages w)
    (messageListElement w) (changeChannelButton w) (body w)
    (localStorage w) (sockets w) (effects w).
Definition with_socket (v : option nat) (w : World) : World :=
  mkWorld (_state w) (_username w) v (channel w) (messages w)
    (messageListElement w) (changeChannelButton w) (body w)
    (localStorage w) (sockets w) (effects w).
Definition with_channel (v : string) (w : World) : World :=
  mkWorld (_state w) (_username w) (socket w) v (messages w)
    (messageListElement w) (changeChannelButton w) (body w)
    (localStorage w) (sockets w) (effects w).
Definition with_messages (v : list Message.t) (w : World) : World :=
  mkWorld (_state w) (_username w) (socket w) (channel w) v
    (messageListElement w) (changeChannelButton w) (body w)
    (localStorage w) (sockets w) (effects w).
Definition with_messageListElement (v : option (list Element)) (w : World)
  : World :=
  mkWorld (_state w) (_username w) (socket w) (channel w) (messages w)
    v (changeChannelButton w) (body w)
    (localStorage w) (sockets w) (effects w).
Definition with_changeChannelButton (v : bool) (w : World) : World :=
  mkWorld (_state w) (_username w) (socket w) (channel w) (messages w)
    (messageListElement w) v (body w)
    (localStorage w) (sockets w) (effects w).
Definition with_body (v : option Body) (w : World) : World :=
  mkWorld (_state w) (_username w) (socket w) (channel w) (messages w)
    (messageListElement w) (changeChannelButton w) v
    (localStorage w) (sockets w) (effects w).
Definition with_localStorage (v : gmap string string) (w : World) : World :=
  mkWorld (_state w) (_username w) (socket w) (channel w) (messages w)
    (messageListElement w) (changeChannelButton w) (body w)
    v (sockets w) (effects w).
Definition with_sockets (v : list WebSocket) (w : World) : World :=
  mkWorld (_state w) (_username w) (socket w) (channel w) (messages w)
    (messageListElement w) (changeChannelButton w) (body w)
    (localStorage w) v (effects w).
Definition emit (e : Effect) (w : World) : World :=
  mkWorld (_state w) (_username w) (socket w) (channel w) (messages w)
    (messageListElement w) (changeChannelButton w) (body w)
    (localStorage w) (sockets w) (effects w ++ [e]).

(** Handlers run in the state-and-exception monad: a throw keeps the
    mutations made before it, as in JavaScript. *)
Definition M (A : Type) : Type := World → Result A * World.

Definition ret {A} (a : A) : M A := λ w, (Ok a, w).
Definition throw {A} (e : Exn) : M A := λ w, (Throw e, w).
Definition bind {A B} (m : M A) (k : A → M B) : M B :=
  λ w, match m w with
       | (Ok a, w') => k a w'
       | (Throw e, w') => (Throw e, w')
       | (OutOfFuel, w') => (OutOfFuel, w')
       end.
Definition modify (f : World → World) : M unit := λ w, (Ok tt, f w).

Declare Scope chat_scope.
Delimit Scope chat_scope with chat.
Notation "'let!' x ':=' m 'in' k" := (bind m (λ x, k))
  (at level 10, x name, m at level 100, k at level 200) : chat_scope.
Notation "m ';;' k" := (bind m (λ _, k))
  (at level 100, k at level 200, right associativity) : chat_scope.
Local Open Scope chat_scope.

(** JavaScript truthiness of a string-or-null value, and `a || b`. *)
Definition truthy (v : option string) : bool :=
  match v with
  | Some s => negb (bool_decide (s = ""))
  | None => false
  end.

Definition js_or (a b : option string) : option string :=
  if truthy a then a else b.

(** String.prototype.toLowerCase on the ASCII letters. *)
Definition toLowerCase_ascii (c : ascii) : ascii :=
  let n := nat_of_ascii c in
  if (65 <=? n)%nat && (n <=? 90)%nat then ascii_of_nat (n + 32) else c.

Fixpoint toLowerCase (s : string) : string :=
  match s with
  | EmptyString => EmptyString
  | String c s => String (toLowerCase_ascii c) (toLowerCase s)
  end.

(** get username() {
      return this._username || localStorage.getItem('username') || null;
    } *)
Definition username (w : World) : option string :=
  js_or (js_or (_username w) (localStorage w !! "username")) None.

(** set username(value) {
      if (value === null || value === undefined) {
        this._username = null;
        localStorage.removeItem('username');
      } else {
        const { username, rememberMe } = value;
        this._username = username;
        if (rememberMe) { localStorage.setItem('username', username); }
      }
    } *)
Definition set_username (value : option (string * bool)) : M unit :=
  match value with
  | None =>
      modify (λ w, with_localStorage (delete "username" (localStorage w))
                     (with_username None w))
  | Some (username, rememberMe) =>
      modify (with_username (Some username)) ;;
      if rememberMe
      then modify (λ w, with_localStorage
                          (<["username" := username]> (localStorage w)) w)
      else ret tt
  end.

Definition is_OPEN (w : World) (s : nat) : bool :=
  match sockets w !! s with
  | Some ws => match readyState ws with OPEN => true | _ => false end
  | None => false
  end.

Definition set_readyState (r : ReadyState) (ws : WebSocket) : WebSocket :=
  mkWebSocket (url ws) r.

(** socket.close() on an open socket: the browser starts the closing
    handshake; the close event comes later. *)
Definition WebSocket_close (s : nat) : M unit :=
  modify (λ w, emit (SocketClose s)
                 (with_sockets (alter (set_readyState CLOSING) s (sockets w)) w)).

(** closeConnection(event) {
      if (this.socket && this.socket.readyState === WebSocket.OPEN) {
        if (event) { event.preventDefault(); }
        this.socket.close();
        this.socket = null;
      }
    } *)
Definition closeConnection (event : bool) : M unit :=
  λ w, match socket w with
       | Some s =>
           if is_OPEN w s then
             ((if event then modify (emit PreventDefault) else ret tt) ;;
              WebSocket_close s ;;
              modify (with_socket None)) w
           else ret tt w
       | None => ret tt w
       end.

(** connect() {
      this.socket = new WebSocket('wss://courselab.lnu.se/message-app/socket');
      this.socket.addEventListener('open', this.handleOpen.bind(this));
      this.socket.addEventListener('message', this.handleMessage.bind(this));
      this.socket.addEventListener('error', this.handleError);
      this.socket.addEventListener('close', this.handleClose.bind(this));
      window.addEventListener('beforeunload', this.closeConnection.bind(this));
    } *)
Definition connect : M unit :=
  modify (λ w,
    let s := length (sockets w) in
    emit (NewWebSocket s)
      (with_socket (Some s)
         (with_sockets
            (sockets w ++
               [mkWebSocket "wss://courselab.lnu.se/message-app/socket" CONNECTING])
            w))).

Definition replaceChildren (b : Body) : M unit :=
  modify (λ w, emit (ReplaceChildren b) (with_body (Some b) w)).

(** renderBody(state), with the assignment `this.state = 'channel-choice'`
    of its first branch going through [setter]. *)
Definition renderBody_with (setter : string → M unit) (state : string)
  : M unit :=
  if bool_decide (state = "username-choice") then
    modify (with_changeChannelButton true) ;;
    λ w, if truthy (username w)
         then setter "channel-choice" w
         else replaceChildren UsernameChoiceMenu w
  else if bool_decide (state = "channel-choice") then
    modify (with_changeChannelButton true) ;;
    replaceChildren ChannelChoiceMenu
  else if bool_decide (state = "chat") then
    modify (with_changeChannelButton false) ;;
    modify (with_messageListElement (Some [])) ;;
    replaceChildren Chat ;;
    connect
  else throw (Error "Invalid state").

(** set state(value) {
      this._state = value;
      this.closeConnection();
      this.messageListElement = null;
      this.inputFieldElement = null;
      this.renderBody(value);
    }
    The setter and renderBody call each other; [fuel] bounds the depth. *)
Fixpoint set_state_fuel (fuel : nat) (value : string) : M unit :=
  match fuel with
  | O => λ w, (OutOfFuel, w)
  | S fuel =>
      modify (with_state (Some value)) ;;
      closeConnection false ;;
      modify (with_messageListElement None) ;;
      renderBody_with (set_state_fuel fuel) value
  end.

(** The recursion is at most two deep: 'username-choice' may forward to
    'channel-choice', which forwards nowhere. *)
Definition set_state : string → M unit := set_state_fuel 2.
Definition renderBody : string → M unit := renderBody_with set_state.

(** connectedCallback() { super.connectedCallback(); this.state = 'username-choice'; } *)
Definition connectedCallback : M unit := set_state "username-choice".

(** disconnectedCallback() { this.closeConnection(); } *)
Definition disconnectedCallback : M unit := closeConnection false.

(** handleClick(event) { switch (event.target.dataset.action) { ... } } *)
Definition handleClick (action : option string) : M unit :=
  if bool_decide (action = Some "change-username") then
    set_username None ;; set_state "username-choice"
  else if bool_decide (action = Some "change-channel") then
    set_state "channel-choice"
  else ret tt.

(** createMessageElement(message): message.username.toLowerCase() throws
    a TypeError when the message has no username. *)
Definition createMessageElement (message : Message.t) : M Element :=
  match Message.username message with
  | None => throw TypeError
  | Some u =>
      if bool_decide (toLowerCase u = "the server")
      then ret (ServerMessage (Message.data message))
      else ret (UserMessage (u ++ ":") (Message.data message))
  end.

(** The node that createMessageElement returns for a message, when it
    returns one.  Used to state what the render target holds. *)
Definition rendered (message : Message.t) : option Element :=
  u ← Message.username message;
  Some (if bool_decide (toLowerCase u = "the server")
        then ServerMessage (Message.data message)
        else UserMessage (u ++ ":") (Message.data message)).

(** this.messageListElement.appendChild(messageElement) *)
Definition appendChild (el : Element) : M unit :=
  λ w, match messageListElement w with
       | None => (Throw TypeError, w)
       | Some children => (Ok tt, with_messageListElement (Some (children ++ [el])%list) w)
       end.

(** this.messages.push(message) *)
Definition push (message : Message.t) : M unit :=
  modify (λ w, with_messages (messages w ++ [message])%list w).

(** A submitted form: its id and the entries FormData collects from it.
    FormData.get returns the first value under a name, or null. *)
Record Form := mkForm {
  id : string;
  entries : list (string * string);
}.

Fixpoint FormData_get (name : string) (entries : list (string * string))
  : option string :=
  match entries with
  | [] => None
  | (n, v) :: rest => if bool_decide (n = name) then Some v else FormData_get name rest
  end.

(** handleAuthFormSubmit(form) {
      const username = formData.get('username');
      const rememberMe = formData.get('remember-me');
      if (username) {
        this.username = { username, rememberMe: !!rememberMe };
        this.state = 'channel-choice';
      }
    } *)
Definition handleAuthFormSubmit (form : Form) : M unit :=
  let username := FormData_get "username" (entries form) in
  let rememberMe := FormData_get "remember-me" (entries form) in
  match username with
  | Some u =>
      if truthy username then
        set_username (Some (u, truthy rememberMe)) ;;
        set_state "channel-choice"
      else ret tt
  | None => ret tt
  end.

(** handleChannelChoiceFormSubmit(form) {
      const channel = formData.get('channel');
      if (channel) { this.channel = channel; this.state = 'chat'; }
    } *)
Definition handleChannelChoiceFormSubmit (form : Form) : M unit :=
  let channel := FormData_get "channel" (entries form) in
  match channel with
  | Some c =>
      if truthy channel then
        modify (with_channel c) ;;
        set_state "chat"
      else ret tt
  | None => ret tt
  end.

Section WithJSON.
Context `{JSON}.

(** storedMessages.forEach((message) => {
      this.messages.push(message);
      const messageElement = this.createMessageElement(message);
      this.messageListElement.appendChild(messageElement);
    }); *)
Fixpoint forEach_stored (storedMessages : list Message.t) : M unit :=
  match storedMessages with
  | [] => ret tt
  | message :: rest =>
      push message ;;
      let! messageElement := createMessageElement message in
      appendChild messageElement ;;
      forEach_stored rest
  end.

(** handleOpen() {
      console.log('Connection with the server established.');
      const storedMessages = JSON.parse(localStorage.getItem(this.channel));
      if (storedMessages) { storedMessages.forEach(...); }
    }
    JSON.parse(null) is null: nothing is replayed for a channel without
    an entry. *)
Definition handleOpen : M unit :=
  modify (emit (ConsoleLog "Connection with the server established.")) ;;
  λ w, match localStorage w !! channel w with
       | None => ret tt w
       | Some text =>
           match JSON_parse text with
           | None => throw SyntaxError w
           | Some storedMessages => forEach_stored storedMessages w
           end
       end.

(** scrollToBottom() {
      this.messageListElement.scrollTop = this.messageListElement.scrollHeight;
    } *)
Definition scrollToBottom : M unit :=
  λ w, match messageListElement w with
       | None => (Throw TypeError, w)
       | Some _ => (Ok tt, emit ScrollToBottom w)
       end.

(** localStorage.setItem(this.channel, JSON.stringify(this.messages)) *)
Definition persist : M unit :=
  modify (λ w, with_localStorage
                 (<[channel w := JSON_stringify (messages w)]> (localStorage w)) w).

(** handleMessage(event) {
      const message = JSON.parse(event.data);
      if (message.type !== 'heartbeat') {
        this.messages.push(message);
        localStorage.setItem(this.channel, JSON.stringify(this.messages));
        const messageElement = this.createMessageElement(message);
        this.messageListElement.appendChild(messageElement);
        this.scrollToBottom();
      }
    } *)
Definition handleMessage (event_data : string) : M unit :=
  match JSON_parse_message event_data with
  | None => throw SyntaxError
  | Some message =>
      if bool_decide (Message.type message ≠ Some "heartbeat") then
        push message ;;
        persist ;;
        let! messageElement := createMessageElement message in
        appendChild messageElement ;;
        scrollToBottom
      else ret tt
  end.

(** The notice handleClose pushes. *)
Definition disconnect_notice : Message.t :=
  Message.mk (Some "notification") (Some "You are disconnected!")
             (Some "The Server") None None.

(** handleClose() {
      console.log('Connection closed.');
      this.messages.push({ data: 'You are disconnected!', type: 'notification',
                           username: 'The Server' });
      localStorage.setItem(this.channel, JSON.stringify(this.messages));
      this.messages = [];
      this.socket = null;
    } *)
Definition handleClose : M unit :=
  modify (emit (ConsoleLog "Connection closed.")) ;;
  push disconnect_notice ;;
  persist ;;
  modify (with_messages []) ;;
  modify (with_socket None).

(** handleError(error) { console.error('Connection error:', error); } *)
Definition handleError : M unit :=
  modify (emit (ConsoleError "Connection error:")).

(** The object sendMessage builds. *)
Definition outbound (data : string) (w : World) : Message.t :=
  Message.mk (Some "message") (Some data) (username w) (Some (channel w))
             (Some apiKey).

(** sendMessage(data) {
      if (!this.socket || this.socket.readyState !== WebSocket.OPEN) {
        console.error('Cannot send message: WebSocket is not open.');
        return;
      }
      const message = { type: 'message', data, username: this.username,
                        channel: this.channel, key: this.apiKey };
      this.socket.send(JSON.stringify(message));
    } *)
Definition sendMessage (data : string) : M unit :=
  λ w, let not_open :=
         modify (emit (ConsoleError "Cannot send message: WebSocket is not open.")) in
       match socket w with
       | None => not_open w
       | Some s =>
           if negb (is_OPEN w s) then not_open w
           else modify (emit (SocketSend s (JSON_stringify_message (outbound data w)))) w
       end.

(** handleMessageFormSubmit(form) {
      const message = formData.get('message');
      if (message) {
        this.sendMessage(message);
        const inputField = form.querySelector('.input-field');
        inputField.value = '';
        inputField.dispatchEvent(new Event('input'));
      }
    } *)
Definition handleMessageFormSubmit (form : Form) : M unit :=
  let message := FormData_get "message" (entries form) in
  match message with
  | Some text =>
      if truthy message then
        sendMessage text ;;
        modify (emit ClearInputField)
      else ret tt
  | None => ret tt
  end.

(** handleSubmit(event) {
      event.preventDefault();
      const form = event.target;
      switch (form.id) {
        case 'auth-form': ...; case 'channel-form': ...; case 'message-form': ...;
        default: throw new Error('Unhandled form submission');
      }
    } *)
Definition handleSubmit (form : Form) : M unit :=
  modify (emit PreventDefault) ;;
  if bool_decide (id form = "auth-form") then handleAuthFormSubmit form
  else if bool_decide (id form = "channel-form") then handleChannelChoiceFormSubmit form
  else if bool_decide (id form = "message-form") then handleMessageFormSubmit form
  else throw (Error "Unhandled form submission").

(** The events a WebSocket delivers to the listeners of connect().  The
    listeners are bound to the controller, not to the socket that fires. *)
Inductive SocketEvent :=
  | on_open
  | on_message (data : string)
  | on_error
  | on_close.

(** The browser fires event [e] on socket [s]: it moves the socket's
    readyState where the event implies one, then runs the listener.  None
    when the socket cannot fire that event in its current readyState
    (open only while connecting, message only while open, close once).
    An exception of the listener is reported by the browser and the page
    goes on with the state the listener left. *)
Definition fire (s : nat) (e : SocketEvent) (w : World) : option World :=
  ws ← sockets w !! s;
  match e, readyState ws with
  | on_open, CONNECTING =>
      Some (handleOpen (with_sockets (alter (set_readyState OPEN) s (sockets w)) w)).2
  | on_message data, OPEN => Some (handleMessage data w).2
  | on_error, (CONNECTING | OPEN | CLOSING) => Some (handleError w).2
  | on_close, (CONNECTING | OPEN | CLOSING) =>
      Some (handleClose (with_sockets (alter (set_readyState CLOSED) s (sockets w)) w)).2
  | _, _ => None
  end.

(** Inbound payloads handled one after the other. *)
Definition handleMessages (payloads : list string) (w : World) : World :=
  foldl (λ w d, (handleMessage d w).2) w payloads.

(** Whether a payload parses to a message of type heartbeat. *)
Definition is_heartbeat (event_data : string) : bool :=
  match JSON_parse_message event_data with
  | Some message => bool_decide (Message.type message = Some "heartbeat")
  | None => false
  end.

(** The event loop of the page, as far as this element is concerned. *)
Inductive Event :=
  | SocketEv (s : nat) (e : SocketEvent)
  | Click (action : option string)
  | Submit (form : Form)
  | BeforeUnload
  | Disconnected.

Definition step (e : Event) (w : World) : option World :=
  match e with
  | SocketEv s e => fire s e w
  | Click action => Some (handleClick action w).2
  | Submit form => Some (handleSubmit form w).2
  | BeforeUnload => Some (closeConnection true w).2
  | Disconnected => Some (disconnectedCallback w).2
  end.

Fixpoint steps (es : list Event) (w : World) : option World :=
  match es with
  | [] => Some w
  | e :: es => w' ← step e w; steps es w'
  end.

End WithJSON.

(** A log without heartbeats, and a world whose stored entry for the
    current channel is the text of such a log. *)
Definition heartbeat_free (l : list Message.t) : Prop :=
  Forall (λ m, Message.type m ≠ Some "heartbeat") l.

Definition persisted_heartbeat_free `{JSON} (w : World) : Prop :=
  ∀ text, localStorage w !! channel w = Some text →
          ∃ l, text = JSON_stringify l ∧ heartbeat_free l.

(** What the state setter leaves alone. *)
Definition same_session (w w' : World) : Prop :=
  _username w' = _username w ∧ channel w' = channel w ∧
  messages w' = messages w ∧ localStorage w' = localStorage w.

(** A form field that was left empty: no value, or the empty string. *)
Definition empty (v : option string) : Prop := v = None ∨ v = Some "".

(** this.socket refers to a socket whose readyState is OPEN. *)
Definition connected (w : World) (s : nat) : Prop :=
  socket w = Some s ∧ readyState <$> sockets w !! s = Some OPEN.

(** A value is blank when String.prototype.trim leaves nothing of it. *)
Definition is_space (c : ascii) : bool :=
  let n := nat_of_ascii c in
  bool_decide (n = 32 ∨ n = 9 ∨ n = 10 ∨ n = 11 ∨ n = 12 ∨ n = 13)%nat.

Fixpoint blank (s : string) : bool :=
  match s with
  | EmptyString => true
  | String c s => is_space c && blank s
  end.

(** The world in which a ChatApp element is created: the class-field
    initialisers of the source, over a given localStorage. *)
Definition new_ChatApp (storage : gmap string string) : World :=
  mkWorld None (js_or (storage !! "username") None) None "default_channel"
          [] None false None storage [] [].

End ChatApp.

(** A small self-delimiting text format that instantiates the JSON
    interface in the closed examples below (Rocq strings make real JSON
    text, full of quotes, unreadable). *)
Module ExampleJSON.
Import ChatApp.

Fixpoint enc_string (s : string) : string :=
  match s with
  | EmptyString => "0"
  | String c s => String "1" (String c (enc_string s))
  end.

Definition enc_field (f : option string) : string :=
  match f with
  | None => "N"
  | Some s => "S" ++ enc_string s
  end.

Definition enc_message (m : Message.t) : string :=
  enc_field (Message.type m) ++ enc_field (Message.data m) ++
  enc_field (Message.username m) ++ enc_field (Message.channel m) ++
  enc_field (Message.key m).

Fixpoint enc_list (l : list Message.t) : string :=
  match l with
  | [] => "."
  | m :: l => "," ++ enc_message m ++ enc_list l
  end.

Fixpoint dec_string (s : string) : option (string * string) :=
  match s with
  | EmptyString => None
  | String t s1 =>
      if Ascii.eqb t "0" then Some (EmptyString, s1)
      else if Ascii.eqb t "1" then
        match s1 with
        | EmptyString => None
        | String c rest =>
            match dec_string rest with
            | Some (x, r) => Some (String c x, r)
            | None => None
            end
        end
      else None
  end.

Definition dec_field (s : string) : option (option string * string) :=
  match s with
  | EmptyString => None
  | String t r =>
      if Ascii.eqb t "N" then Some (None, r)
      else if Ascii.eqb t "S" then
        match dec_string r with
        | Some (x, r) => Some (Some x, r)
        | None => None
        end
      else None
  end.

Definition dec_message (s : string) : option (Message.t * string) :=
  '(ty, s) ← dec_field s;
  '(da, s) ← dec_field s;
  '(us, s) ← dec_field s;
  '(ch, s) ← dec_field s;
  '(ke, s) ← dec_field s;
  Some (Message.mk ty da us ch ke, s).

Fixpoint dec_list (fuel : nat) (s : string) : option (list Message.t) :=
  match fuel with
  | O => None
  | S fuel =>
      match s with
      | EmptyString => None
      | String t r =>
          if Ascii.eqb t "." then
            match r with EmptyString => Some [] | _ => None end
          else if Ascii.eqb t "," then
            '(m, r) ← dec_message r;
            l ← dec_list fuel r;
            Some (m :: l)
          else None
      end
  end.

#[export] Instance example_JSON : JSON := {|
  JSON_stringify := enc_list;
  JSON_stringify_message := enc_message;
  JSON_parse := λ s, dec_list (S (String.length s)) s;
  JSON_parse_message := λ s, fst <$> dec_message s;
|}.

Definition m1 : Message.t :=
  Message.mk (Some "message") (Some "hello") (Some "al") (Some "c") (Some apiKey).
Definition m2 : Message.t :=
  Message.mk (Some "notification") (Some "bo joined") (Some "The Server") None None.
Definition heartbeat : Message.t :=
  Message.mk (Some "heartbeat") None None None None.
(** A message object that has no username property. *)
Definition anonymous : Message.t :=
  Message.mk (Some "message") (Some "hello") None (Some "c") None.

(** A session in the chat state on channel c with an open connection and
    nothing received yet: the element is created over an empty
    localStorage, the two forms are submitted and the socket opens. *)
Definition chatting : World :=
  default (new_ChatApp ∅)
    (steps [Submit (mkForm "auth-form" [("username", "al")]);
            Submit (mkForm "channel-form" [("channel", "c")]);
            SocketEv 0 on_open]
       (connectedCallback (new_ChatApp ∅)).2).

(** The same session before its socket has opened. *)
Definition connecting : World :=
  default (new_ChatApp ∅)
    (steps [Submit (mkForm "auth-form" [("username", "al")]);
            Submit (mkForm "channel-form" [("channel", "c")])]
       (connectedCallback (new_ChatApp ∅)).2).

End ExampleJSON.

(* ===================================================================== *)
(** ** Further parts of the components                                    *)
(* ===================================================================== *)

Module DesktopWindowMore.
Import DesktopWindow.
Local Open Scope Z_scope.

(** The user resizes the browser window: window.innerWidth and
    window.innerHeight change, no listener of the page runs. *)
Definition set_viewport (width height : Z) (d : Desktop) : Desktop :=
  mkDesktop width height (instances d) (currentlyDraggedInstance d).

(** The window the coordinator points at has its flag set. *)
Definition registered_has_flag (d : Desktop) : Prop :=
  ∀ i w, currentlyDraggedInstance d = Some i → instances d !! i = Some w →
         isDragging w = true.

(** No window has its flag set without being the one the coordinator
    points at. *)
Definition flags_clean (d : Desktop) : Prop :=
  ∀ j w, instances d !! j = Some w → isDragging w = true →
         currentlyDraggedInstance d = Some j.

(** A pointer stream in which a title-bar mousedown only arrives while no
    other window is being dragged. *)
Definition single_pointer (d : Desktop) (es : list PointerEvent) : Prop :=
  ∀ pre this ev post,
    es = (pre ++ TitleBarMouseDown this ev :: post)%list →
    currentlyDraggedInstance (run pre d) = None ∨
    currentlyDraggedInstance (run pre d) = Some this.

(** The class `active` of a dropdown mirrors the display of its content. *)
Definition mirrors (c : Dropdown) : Prop :=
  active c = bool_decide (display c = "block").

End DesktopWindowMore.

Module WindowShell.

(** The fields of a DesktopWindow element behind the title-bar buttons and
    the focus listener: dataset.windowId, the copy connectedCallback keeps
    in dataId, isFocused, whether the element carries the class
    `maximized`, and style.display (None while unset). *)
Record Shell := mkShell {
  windowId : option string;
  dataId : option string;
  isFocused : bool;
  maximized : bool;
  style_display : option string;
}.

(** new CustomEvent('closeWindow', { detail: { id: this.dataId }, ... }) *)
Record CloseWindow := mkCloseWindow { detail_id : option string }.

(** connectedCallback() {
      this.dataId = this.dataset.windowId;
      this.render();
      this.addEventListeners();
    } *)
Definition connectedCallback (w : Shell) : Shell :=
  mkShell (windowId w) (windowId w) (isFocused w) (maximized w) (style_display w).

(** handleCloseClick() {
      const closeEvent = new CustomEvent('closeWindow', { detail: { id: this.dataId }, ... });
      this.dispatchEvent(closeEvent);
    } *)
Definition handleCloseClick (w : Shell) : Shell * list CloseWindow :=
  (w, [mkCloseWindow (dataId w)]).

(** handleMaximizeClick() { this.classList.toggle('maximized'); } *)
Definition handleMaximizeClick (w : Shell) : Shell * list CloseWindow :=
  (mkShell (windowId w) (dataId w) (isFocused w) (negb (maximized w))
           (style_display w), []).

(** handleMinimizeClick() { this.style.display = 'none'; } *)
Definition handleMinimizeClick (w : Shell) : Shell * list CloseWindow :=
  (mkShell (windowId w) (dataId w) (isFocused w) (maximized w) (Some "none"), []).

(** handleTitleBarClick(event) {
      switch (event.target.getAttribute('aria-label')) {
        case 'Close': this.handleCloseClick(); break;
        case 'Maximize': this.handleMaximizeClick(); break;
        case 'Minimize': this.handleMinimizeClick(); break;
      }
    } *)
Definition handleTitleBarClick (ariaLabel : option string) (w : Shell)
  : Shell * list CloseWindow :=
  if bool_decide (ariaLabel = Some "Close") then handleCloseClick w
  else if bool_decide (ariaLabel = Some "Maximize") then handleMaximizeClick w
  else if bool_decide (ariaLabel = Some "Minimize") then handleMinimizeClick w
  else (w, []).

(** Title-bar clicks one after the other, with the events they dispatch. *)
Fixpoint titleBarClicks (labels : list (option string)) (w : Shell)
  : Shell * list CloseWindow :=
  match labels with
  | [] => (w, [])
  | label :: rest =>
      let '(w1, evs1) := handleTitleBarClick label w in
      let '(w2, evs2) := titleBarClicks rest w1 in
      (w2, (evs1 ++ evs2)%list)
  end.

(** handleFocusChange(event) {
      const focusedWindowId = event.detail.focusedWindowId;
      this.isFocused = this.dataset.windowId === focusedWindowId;
    } *)
Definition handleFocusChange (focusedWindowId : option string) (w : Shell) : Shell :=
  mkShell (windowId w) (dataId w) (bool_decide (windowId w = focusedWindowId))
          (maximized w) (style_display w).

(** A windowFocusChange event on window reaches the listener of every
    window element. *)
Definition windowFocusChange (focusedWindowId : option string)
    (ws : list Shell) : list Shell :=
  handleFocusChange focusedWindowId <$> ws.

(** getWindowTitle() { return this.getAttribute('title') || 'Untitled Window'; } *)
Definition getWindowTitle (title : option string) : option string :=
  ChatApp.js_or title (Some "Untitled Window").

End WindowShell.

Module DesktopIcon.

(** A desktop-icon element: its attribute `name` and its field `name`
    (undefined until render).  The shadow tree is not modelled: render
    fills it by assigning a template with the attribute values
    interpolated to innerHTML, so what it shows is what the HTML parser
    makes of them. *)
Record Icon := mkIcon {
  attr_name : option string;
  name : option string;
}.

(** new CustomEvent('iconDoubleClick', { detail: { windowTitle: this.name }, ... }) *)
Record IconDoubleClick := mkIconDoubleClick { windowTitle : option string }.

(** render() {
      ...
      const name = this.getAttribute('name') || 'New Folder';
      this.name = name;
      ...
    } *)
Definition render (i : Icon) : Icon :=
  let name := ChatApp.js_or (attr_name i) (Some "New Folder") in
  mkIcon (attr_name i) name.

(** connectedCallback() { this.render(); this.addEventListeners(); } *)
Definition connectedCallback (i : Icon) : Icon := render i.

(** handleDoubleClick() { ... detail: { windowTitle: this.name } ...; this.dispatchEvent(event); } *)
Definition handleDoubleClick (i : Icon) : Icon * list IconDoubleClick :=
  (i, [mkIconDoubleClick (name i)]).

End DesktopIcon.

Module ChatAppMore.
Import ChatApp ExampleJSON.

(** The example session after the user has switched to channel d and the
    new socket has opened, while socket 0 is still closing. *)
Definition switched : World :=
  default chatting
    (steps [Click (Some "change-channel"); Submit (mkForm "channel-form" [("channel", "d")]);
            SocketEv 1 on_open] chatting).

(** A session entering the chat on channel c, its socket still connecting,
    over a localStorage that holds an earlier log of c. *)
Definition returning : World :=
  default (new_ChatApp ∅)
    (steps [Submit (mkForm "auth-form" [("username", "al")]);
            Submit (mkForm "channel-form" [("channel", "c")])]
       (connectedCallback (new_ChatApp {[ "c" := JSON_stringify [m1; m2] ]})).2).

(** The example session on a channel that is called username. *)
Definition on_username_channel : World :=
  default chatting
    (steps [Click (Some "change-channel");
            Submit (mkForm "channel-form" [("channel", "username")]);
            SocketEv 1 on_open] chatting).

(** The page is loaded again: a new element over the localStorage the old
    one leaves behind. *)
Definition reload (w : World) : World := new_ChatApp (localStorage w).

(** What is on screen agrees with the state: the chat body with a render
    target and an enabled Change Channel in state 'chat', one of the two
    menus, no render target and a disabled Change Channel otherwise. *)
Definition screen_matches_state (w : World) : Prop :=
  (_state w = Some "chat" ∧ body w = Some Chat ∧
   is_Some (messageListElement w) ∧ changeChannelButton w = false) ∨
  (_state w = Some "channel-choice" ∧ body w = Some ChannelChoiceMenu ∧
   messageListElement w = None ∧ changeChannelButton w = true) ∨
  (_state w = Some "username-choice" ∧ body w = Some UsernameChoiceMenu ∧
   messageListElement w = None ∧ changeChannelButton w = true).

(** Two worlds with the same state, body and button, and a render target
    in both or in neither. *)
Definition same_screen (w w' : World) : Prop :=
  _state w' = _state w ∧ body w' = body w ∧
  changeChannelButton w' = changeChannelButton w ∧
  (is_Some (messageListElement w') ↔ is_Some (messageListElement w)).

(** The auth form as the browser submits it: the username field and, when
    the box is ticked, remember-me with the value on. *)
Definition auth_form (u : string) (rememberMe : bool) : Form :=
  mkForm "auth-form"
    (("username", u) :: if rememberMe then [("remember-me", "on")] else []).

Definition channel_form (c : string) : Form :=
  mkForm "channel-form" [("channel", c)].

End ChatAppMore.

(* ===================================================================== *)
(** ** Properties of the drag coordinator                                 *)
(* ===================================================================== *)

Module DragSpec.
Import DesktopWindow.
Local Open Scope Z_scope.

Lemma move_inactive (d : Desktop) (ev : MouseMove) :
  (∀ i w, ¬ drag_active d i w) → handleMouseMoveForDrag ev d = d.
Proof.
  intros Hno. unfold handleMouseMoveForDrag.
  destruct (currentlyDraggedInstance d) as [i|] eqn:Hcur; [|done].
  destruct (instances d !! i) as [w|] eqn:Hw; [|done].
  destruct (isDragging w) eqn:Hdrag; [|done].
  exfalso. by apply (Hno i w).
Qed.

Lemma move_active (d : Desktop) (i : nat) (w : Instance) (ev : MouseMove) :
  drag_active d i w →
  handleMouseMoveForDrag ev d =
    set_instances (<[i := set_position (newX ev w) (newY ev w) w]> (instances d)) d.
Proof.
  intros (Hcur & Hw & Hdrag). unfold handleMouseMoveForDrag.
  rewrite Hcur, Hw, Hdrag. reflexivity.
Qed.

Lemma move_keeps_active (d : Desktop) (i : nat) (w : Instance) (ev : MouseMove) :
  drag_active d i w →
  drag_active (handleMouseMoveForDrag ev d) i
              (set_position (newX ev w) (newY ev w) w).
Proof.
  intros Hact. rewrite (move_active d i w ev Hact).
  destruct Hact as (Hcur & Hw & Hdrag).
  repeat split; simpl; [done| |done].
  apply list_lookup_insert_eq. by eapply lookup_lt_Some.
Qed.

Lemma move_position (d : Desktop) (i : nat) (w : Instance) (ev : MouseMove) :
  drag_active d i w →
  position (handleMouseMoveForDrag ev d) i = Some (newX ev w, newY ev w).
Proof.
  intros Hact. destruct (move_keeps_active d i w ev Hact) as (_ & Hw' & _).
  unfold position. by rewrite Hw'.
Qed.

Lemma moves_keep_active (evs : list MouseMove) :
  ∀ (d : Desktop) (i : nat) (w : Instance),
    drag_active d i w →
    ∃ w', drag_active (run (WindowMouseMove <$> evs) d) i w' ∧ same_drag w w'.
Proof.
  induction evs as [|ev evs IH]; intros d i w Hact.
  - exists w. split; [exact Hact | by repeat split].
  - destruct (IH _ _ _ (move_keeps_active d i w ev Hact)) as (w' & Hact' & Hsame).
    exists w'. split; [exact Hact'|].
    destruct Hsame as (? & ? & ? & ?). by repeat split.
Qed.

Lemma bounds_of_new (ev : MouseMove) (w : Instance) :
  newX ev w ≤ maxX w - 1 ∧ newY ev w ≤ maxY w ∧ (0 ≤ maxY w → 0 ≤ newY ev w).
Proof. unfold newX, newY. lia. Qed.

(** The coordinator holds one reference: two sessions are the same one. *)
Lemma drag_session_unique (d : Desktop) (i j : nat) (w w' : Instance) :
  drag_active d i w → drag_active d j w' → i = j ∧ w = w'.
Proof.
  intros (Hi & Hw & _) (Hj & Hw' & _).
  assert (i = j) as -> by congruence. split; congruence.
Qed.

Lemma mousedown_twice (d : Desktop) (a b : nat) (wa : Instance)
    (eva evb : MouseDown) :
  a ≠ b → instances d !! a = Some wa →
  tagName eva ≠ "BUTTON" → tagName evb ≠ "BUTTON" →
  let d' := handleTitleBarMouseDown b evb (handleTitleBarMouseDown a eva d) in
  currentlyDraggedInstance d' = Some b ∧
  isDragging <$> instances d' !! a = Some true ∧
  isDragging <$> instances (stopDrag d') !! a = Some true.
Proof.
  intros Hab Hwa Ha Hb. unfold handleTitleBarMouseDown.
  rewrite !bool_decide_eq_true_2 by done. simpl.
  assert (∀ f, (isDragging <$>
            alter f b (alter (begin_drag eva d) a (instances d)) !! a) = Some true)
    as Hstale.
  { intros f. rewrite list_lookup_alter_ne by done.
    rewrite list_lookup_alter_eq, Hwa. reflexivity. }
  split; [done|]. split; [apply Hstale|].
  unfold stopDrag. simpl.
  rewrite list_lookup_alter_ne by done. apply Hstale.
Qed.

Lemma mousedown_starts_drag (d : Desktop) (i : nat) (w : Instance)
    (ev : MouseDown) :
  instances d !! i = Some w → tagName ev ≠ "BUTTON" →
  drag_active (handleTitleBarMouseDown i ev d) i (begin_drag ev d w).
Proof.
  intros Hw Htag. unfold handleTitleBarMouseDown.
  rewrite bool_decide_eq_true_2 by done.
  split; [done|]. split; [|done]. simpl.
  by rewrite list_lookup_alter_eq, Hw.
Qed.

(** C2, as the code has it.  Without an active drag a pointer move changes
    nothing.  During an active drag every pointer move puts the window at
    x = min(clientX - offsetX, maxX - 1), y = min(max(0, clientY - offsetY), maxY);
    so after any non-empty sequence of moves x <= maxX - 1 and y <= maxY,
    and 0 <= y provided maxY >= 0. *)
Theorem C2_pointer_move_clamped :
  (∀ (d : Desktop) (ev : MouseMove),
     (∀ i w, ¬ drag_active d i w) → handleMouseMoveForDrag ev d = d) ∧
  (∀ (d : Desktop) (i : nat) (w : Instance)
     (evs : list MouseMove) (ev : MouseMove),
     drag_active d i w →
     let x := Z.min (clientX ev - offsetX w) (maxX w - 1) in
     let y := Z.min (Z.max 0 (clientY ev - offsetY w)) (maxY w) in
     position (run (WindowMouseMove <$> (evs ++ [ev])%list) d) i = Some (x, y) ∧
     x ≤ maxX w - 1 ∧ y ≤ maxY w ∧ (0 ≤ maxY w → 0 ≤ y)).
Proof.
  split; [exact move_inactive|].
  intros d i w evs ev Hact x y.
  destruct (moves_keep_active evs d i w Hact) as (w' & Hact' & HX & HY & HoX & HoY).
  split.
  - unfold run. rewrite fmap_app, foldl_app. simpl.
    fold (run (WindowMouseMove <$> evs) d).
    rewrite (move_position _ i w' ev Hact').
    unfold newX, newY. by rewrite HX, HY, HoX, HoY.
  - subst x y. lia.
Qed.

(** C2 on the example page: before any mousedown a pointer move changes
    nothing; after a mousedown on window 0 two moves, the second far
    outside the viewport, leave the window at (799, 540). *)
Lemma C2_pointer_move_clamped_witness :
  handleMouseMoveForDrag (mkMouseMove 10 10) example_desktop = example_desktop ∧
  let d := handleTitleBarMouseDown 0%nat example_mousedown example_desktop in
  position (run (WindowMouseMove <$> ([mkMouseMove 10 10] ++ [mkMouseMove 900 700])%list) d) 0%nat
    = Some (799, 540) ∧
  799 ≤ 800 - 1 ∧ 540 ≤ 540 ∧ (0 ≤ 540 → 0 ≤ 540).
Proof.
  split.
  - apply (proj1 C2_pointer_move_clamped example_desktop (mkMouseMove 10 10)).
    intros i w (Hcur & _). discriminate Hcur.
  - apply (proj2 C2_pointer_move_clamped
             (handleTitleBarMouseDown 0%nat example_mousedown example_desktop) 0%nat
             (mkInstance true 800 540 5 5 None None)
             [mkMouseMove 10 10] (mkMouseMove 900 700)).
    repeat split; reflexivity.
Defined.

(** C2 as first stated fails: in a viewport 50 pixels high the drag starts
    with maxY = -10, and a pointer move puts the window at y = -10 < 0. *)
Lemma C2_counterexample :
  ¬ (∀ (d : Desktop) (i : nat) (w : Instance) (ev : MouseMove),
       drag_active d i w →
       ∃ x y, position (handleMouseMoveForDrag ev d) i = Some (x, y) ∧
              x ≤ maxX w - 1 ∧ 0 ≤ y ∧ y ≤ maxY w).
Proof.
  intros Hclaim.
  destruct (Hclaim (handleTitleBarMouseDown 0%nat example_mousedown low_desktop) 0%nat
              (mkInstance true 800 (-10) 5 5 None None) (mkMouseMove 100 100))
    as (x & y & Hpos & _ & Hy & _).
  - repeat split; reflexivity.
  - vm_compute in Hpos. injection Hpos as _ <-. lia.
Qed.

(** C5 at its failing input: a mousedown on the title bar of window 0
    followed, with no mouseup in between, by one on window 1.  The
    coordinator then points at window 1 alone, but window 0 still has
    isDragging set, and the mouseup that ends the drag does not reset it. *)
Theorem C5_stale_isDragging :
  let d := run [TitleBarMouseDown 0%nat example_mousedown;
                TitleBarMouseDown 1%nat example_mousedown] example_desktop in
  currentlyDraggedInstance d = Some 1%nat ∧
  isDragging <$> instances d !! 0%nat = Some true ∧
  currentlyDraggedInstance (run [WindowMouseUp] d) = None ∧
  isDragging <$> instances (run [WindowMouseUp] d) !! 0%nat = Some true ∧
  isDragging <$> instances (run [WindowMouseUp] d) !! 1%nat = Some false.
Proof. vm_compute. by repeat split. Qed.

End DragSpec.

(* ===================================================================== *)
(** ** Properties of the dropdown menus                                   *)
(* ===================================================================== *)

Module DropdownSpec.
Import DesktopWindow.

Lemma closed_not_open : ¬ is_open closed.
Proof. unfold is_open, closed. simpl. discriminate. Qed.

Lemma closeAllDropdowns_lookup (ex : option nat) (l : list Dropdown) (j : nat) :
  closeAllDropdowns ex l !! j =
    (λ c, if bool_decide (Some j ≠ ex) then closed else c) <$> l !! j.
Proof. unfold closeAllDropdowns. apply list_lookup_imap. Qed.

Lemma closeAllDropdowns_length (ex : option nat) (l : list Dropdown) :
  length (closeAllDropdowns ex l) = length l.
Proof. unfold closeAllDropdowns. apply length_imap. Qed.

Lemma closeAllDropdowns_none_open (l : list Dropdown) (j : nat) (c : Dropdown) :
  closeAllDropdowns None l !! j = Some c → c = closed.
Proof.
  rewrite closeAllDropdowns_lookup. destruct (l !! j); simpl; [|done].
  congruence.
Qed.

Lemma toggleDropdown_spec (i : nat) (l : list Dropdown) (c : Dropdown) :
  l !! i = Some c →
  ∃ l', toggleDropdown i l = Some l' ∧
        l' !! i = Some (mkDropdown
                          (if bool_decide (display c = "block") then "none" else "block")
                          (negb (bool_decide (display c = "block")))) ∧
        ∀ j, j ≠ i → l' !! j = (λ _, closed) <$> l !! j.
Proof.
  intros Hc. unfold toggleDropdown. rewrite Hc. eexists. split; [done|]. split.
  - apply list_lookup_insert_eq. rewrite closeAllDropdowns_length.
    by eapply lookup_lt_Some.
  - intros j Hj. rewrite list_lookup_insert_ne by done.
    rewrite closeAllDropdowns_lookup.
    rewrite bool_decide_eq_true_2 by congruence. done.
Qed.

Lemma toggleDropdown_at_most_one (i : nat) (l l' : list Dropdown) :
  toggleDropdown i l = Some l' → at_most_one_open l'.
Proof.
  intros Htog. destruct (l !! i) as [c|] eqn:Hc.
  - destruct (toggleDropdown_spec i l c Hc) as (l2 & Heq & _ & Hothers).
    assert (l2 = l') as -> by congruence.
    assert (∀ j cj, l' !! j = Some cj → is_open cj → j = i) as Honly.
    { intros j cj Hj Hopen. destruct (decide (j = i)) as [|Hne]; [done|].
      rewrite (Hothers j Hne) in Hj. destruct (l !! j); [|done].
      simpl in Hj. injection Hj as <-. by destruct closed_not_open. }
    intros j k cj ck Hj Hk Hoj Hok.
    rewrite (Honly j cj Hj Hoj). by rewrite (Honly k ck Hk Hok).
  - unfold toggleDropdown in Htog. by rewrite Hc in Htog.
Qed.

Lemma closeDropdown_lookup (i j : nat) (l : list Dropdown) :
  closeDropdown i l !! j =
    if decide (i = j) then (λ _, closed) <$> l !! j else l !! j.
Proof.
  unfold closeDropdown. rewrite list_lookup_alter.
  destruct (decide (i = j)); by subst.
Qed.

Lemma closeDropdown_at_most_one (i : nat) (l : list Dropdown) :
  at_most_one_open l → at_most_one_open (closeDropdown i l).
Proof.
  intros Hinv j k cj ck. rewrite !closeDropdown_lookup.
  intros Hj Hk Hoj Hok.
  destruct (decide (i = j)).
  { destruct (l !! j); [|done]. simpl in Hj. injection Hj as <-.
    by destruct closed_not_open. }
  destruct (decide (i = k)).
  { destruct (l !! k); [|done]. simpl in Hk. injection Hk as <-.
    by destruct closed_not_open. }
  by eapply Hinv.
Qed.

Lemma closeAllDropdowns_at_most_one (l : list Dropdown) :
  at_most_one_open (closeAllDropdowns None l).
Proof.
  intros j k cj ck Hj _ Hoj _.
  apply closeAllDropdowns_none_open in Hj as ->. by destruct closed_not_open.
Qed.

Lemma click_at_most_one (l : list Dropdown) (target : Target) :
  at_most_one_open l → at_most_one_open (click l target).
Proof.
  intros Hinv. unfold click.
  destruct (handleControlPanelClick target l) as [l'|] eqn:Hclick; [|done].
  simpl. unfold handleControlPanelClick in Hclick.
  destruct (contains "window__dropdown-activator" target).
  { destruct (dropdown target) as [i|]; [|done]. simpl in Hclick.
    by eapply toggleDropdown_at_most_one. }
  destruct (contains "window__dropdown-choice" target).
  { destruct (dropdown target) as [i|]; [|done]. simpl in Hclick.
    destruct (l !! i); simplify_eq/=. by apply closeDropdown_at_most_one. }
  destruct (contains "window__dropdown-content" target); simplify_eq/=.
  - done.
  - apply closeAllDropdowns_at_most_one.
Qed.

Lemma clicks_at_most_one (targets : list Target) :
  ∀ l : list Dropdown,
    at_most_one_open l → at_most_one_open (foldl click l targets).
Proof.
  induction targets as [|t ts IH]; intros l Hinv; [done|].
  simpl. apply IH. by apply click_at_most_one.
Qed.

(** C8.  The menus of one window never have two dropdowns open, whatever
    is clicked; a click on an activator toggles that dropdown and closes
    every other one; a click on a choice closes the dropdown of that
    choice and leaves the others; a click on anything that is neither an
    activator, a choice nor a dropdown content closes them all. *)
Theorem C8_at_most_one_dropdown_open :
  (∀ (l : list Dropdown) (targets : list Target),
     at_most_one_open l → at_most_one_open (foldl click l targets)) ∧
  (∀ (l : list Dropdown) (target : Target) (i : nat) (c : Dropdown),
     contains "window__dropdown-activator" target = true →
     dropdown target = Some i → l !! i = Some c →
     ∃ l', handleControlPanelClick target l = Some l' ∧
           l' !! i = Some (mkDropdown
                             (if bool_decide (is_open c) then "none" else "block")
                             (negb (bool_decide (is_open c)))) ∧
           ∀ j, j ≠ i → l' !! j = (λ _, closed) <$> l !! j) ∧
  (∀ (l : list Dropdown) (target : Target) (i : nat) (c : Dropdown),
     contains "window__dropdown-activator" target = false →
     contains "window__dropdown-choice" target = true →
     dropdown target = Some i → l !! i = Some c →
     ∃ l', handleControlPanelClick target l = Some l' ∧
           l' !! i = Some closed ∧
           ∀ j, j ≠ i → l' !! j = l !! j) ∧
  (∀ (l : list Dropdown) (target : Target),
     contains "window__dropdown-activator" target = false →
     contains "window__dropdown-choice" target = false →
     contains "window__dropdown-content" target = false →
     ∃ l', handleControlPanelClick target l = Some l' ∧
           length l' = length l ∧
           ∀ j c, l' !! j = Some c → c = closed).
Proof.
  split; [intros l targets; apply clicks_at_most_one|].
  split; [|split].
  - intros l target i c Hact Hi Hc. unfold handleControlPanelClick.
    rewrite Hact, Hi. simpl. apply toggleDropdown_spec, Hc.
  - intros l target i c Hact Hch Hi Hc. unfold handleControlPanelClick.
    rewrite Hact, Hch, Hi. simpl. rewrite Hc. simpl.
    eexists. split; [done|]. split.
    + rewrite closeDropdown_lookup, decide_True by done. by rewrite Hc.
    + intros j Hj. by rewrite closeDropdown_lookup, decide_False.
  - intros l target Hact Hch Hco. unfold handleControlPanelClick.
    rewrite Hact, Hch, Hco. simpl. eexists. split; [done|]. split.
    + apply closeAllDropdowns_length.
    + apply closeAllDropdowns_none_open.
Qed.

(** C8 on the example menu bar, whose second dropdown is open. *)
Lemma C8_at_most_one_dropdown_open_witness :
  at_most_one_open
    (foldl click example_menus
       [mkTarget ["window__dropdown-activator"] (Some 1);
        mkTarget ["window__dropdown-activator"] (Some 0)]) ∧
  (∃ l', handleControlPanelClick
           (mkTarget ["window__dropdown-activator"] (Some 0)) example_menus = Some l' ∧
         l' !! 0 = Some (mkDropdown "block" true) ∧
         ∀ j, j ≠ 0 → l' !! j = (λ _, closed) <$> example_menus !! j) ∧
  (∃ l', handleControlPanelClick
           (mkTarget ["window__dropdown-choice"] (Some 1)) example_menus = Some l' ∧
         l' !! 1 = Some closed ∧
         ∀ j, j ≠ 1 → l' !! j = example_menus !! j) ∧
  (∃ l', handleControlPanelClick
           (mkTarget ["window__control-panel"] None) example_menus = Some l' ∧
         length l' = length example_menus ∧
         ∀ j c, l' !! j = Some c → c = closed).
Proof.
  split; [|split; [|split]].
  - apply (proj1 C8_at_most_one_dropdown_open).
    intros [|[|[|j]]] [|[|[|k]]] cj ck Hj Hk Hoj Hok; simplify_eq/=; done.
  - apply (proj1 (proj2 C8_at_most_one_dropdown_open) example_menus
             (mkTarget ["window__dropdown-activator"] (Some 0)) 0
             (mkDropdown "" false)); reflexivity.
  - apply (proj1 (proj2 (proj2 C8_at_most_one_dropdown_open)) example_menus
             (mkTarget ["window__dropdown-choice"] (Some 1)) 1
             (mkDropdown "block" true)); reflexivity.
  - apply (proj2 (proj2 (proj2 C8_at_most_one_dropdown_open)) example_menus
             (mkTarget ["window__control-panel"] None)); reflexivity.
Defined.

End DropdownSpec.

(* ===================================================================== *)
(** ** Properties of the chat session controller                          *)
(* ===================================================================== *)

Module ChatSpec.
Import ChatApp.

Ltac unfold_M := unfold bind, modify, ret, throw in *.

(** Reduce field updates and projections on a world given by its fields. *)
Ltac norm_world :=
  cbv beta iota delta
    [with_state with_username with_socket with_channel with_messages
     with_messageListElement with_changeChannelButton with_body
     with_localStorage with_sockets emit
     _state _username socket channel messages messageListElement
     changeChannelButton body localStorage sockets effects].

(** *** closeConnection and the state setter *)

Lemma is_OPEN_spec (w : World) (s : nat) :
  is_OPEN w s = true ↔ readyState <$> sockets w !! s = Some OPEN.
Proof.
  unfold is_OPEN. destruct (sockets w !! s) as [[u []]|]; simpl; split; congruence.
Qed.

Lemma closeConnection_not_open (event : bool) (w : World) :
  (∀ s, ¬ connected w s) → closeConnection event w = (Ok tt, w).
Proof.
  intros Hno. unfold closeConnection.
  destruct (socket w) as [s|] eqn:Hs; [|done].
  destruct (is_OPEN w s) eqn:Hopen; [|done].
  destruct (Hno s). split; [done|]. by apply is_OPEN_spec.
Qed.

Lemma closeConnection_open (w : World) (s : nat) :
  connected w s →
  closeConnection false w =
    (Ok tt, with_socket None
              (emit (SocketClose s)
                 (with_sockets (alter (set_readyState CLOSING) s (sockets w)) w))).
Proof.
  intros [Hs Hopen]. apply is_OPEN_spec in Hopen.
  unfold closeConnection. by rewrite Hs, Hopen.
Qed.

Lemma closeConnection_Ok (event : bool) (w : World) :
  (closeConnection event w).1 = Ok tt.
Proof.
  unfold closeConnection. destruct (socket w) as [s|]; [|done].
  destruct (is_OPEN w s); [|done]. by destruct event.
Qed.

Lemma renderBody_with_leaf (f g : string → M unit) (state : string) :
  state ≠ "username-choice" → renderBody_with f state = renderBody_with g state.
Proof.
  intros Hne. unfold renderBody_with. by rewrite bool_decide_eq_false_2.
Qed.

(** Two units of fuel are enough: more fuel gives the same run. *)
Lemma set_state_fuel_enough (n : nat) (value : string) (w : World) :
  set_state_fuel (S (S n)) value w = set_state value w.
Proof.
  unfold set_state. simpl. unfold_M.
  destruct (closeConnection false (with_state (Some value) w)) as [[[]|e|] w1];
    [|done..].
  unfold renderBody_with.
  destruct (bool_decide (value = "username-choice")); [|done].
  (* 'channel-choice' renders without calling the setter again *)
  reflexivity.
Qed.

(** The setter always comes back, with a value or an exception. *)
Lemma set_state_total (value : string) (w : World) :
  (set_state value w).1 ≠ OutOfFuel.
Proof.
  unfold set_state. simpl. unfold_M.
  pose proof (closeConnection_Ok false (with_state (Some value) w)) as Hc.
  destruct (closeConnection false (with_state (Some value) w)) as [r w1].
  simpl in Hc. subst r. unfold renderBody_with.
  repeat case_bool_decide; unfold_M; simpl; try done.
  destruct (truthy _); [|done].
  match goal with |- context [closeConnection false ?w'] =>
    pose proof (closeConnection_Ok false w') as Hc;
    destruct (closeConnection false w') as [r w2] end.
  simpl in Hc. by subst r.
Qed.

Lemma set_state_channel_choice (w : World) :
  (∀ s, ¬ connected w s) →
  set_state "channel-choice" w =
    (Ok tt,
     emit (ReplaceChildren ChannelChoiceMenu)
       (with_body (Some ChannelChoiceMenu)
          (with_changeChannelButton true
             (with_messageListElement None
                (with_state (Some "channel-choice") w))))).
Proof.
  intros Hno. unfold set_state. simpl. unfold_M.
  by rewrite closeConnection_not_open.
Qed.

Lemma set_state_chat (w : World) :
  (∀ s, ¬ connected w s) →
  set_state "chat" w =
    (Ok tt,
     emit (NewWebSocket (length (sockets w)))
       (with_socket (Some (length (sockets w)))
          (with_sockets
             (sockets w ++
                [mkWebSocket "wss://courselab.lnu.se/message-app/socket" CONNECTING])
             (emit (ReplaceChildren Chat)
                (with_body (Some Chat)
                   (with_messageListElement (Some [])
                      (with_changeChannelButton false
                         (with_messageListElement None
                            (with_state (Some "chat") w))))))))).
Proof.
  intros Hno. unfold set_state. simpl. unfold_M.
  by rewrite closeConnection_not_open.
Qed.

(** A transition out of a session whose socket is OPEN closes that socket
    before anything is rendered or connected. *)
Lemma set_state_chat_closes_first (w : World) (s : nat) :
  connected w s →
  effects (set_state "chat" w).2 =
    (effects w ++ [SocketClose s; ReplaceChildren Chat;
                   NewWebSocket (length (sockets w))])%list ∧
  readyState <$> sockets (set_state "chat" w).2 !! s = Some CLOSING.
Proof.
  intros Hconn. unfold set_state. simpl. unfold_M.
  rewrite (closeConnection_open (with_state (Some "chat") w) s) by done.
  destruct Hconn as [_ Hopen]. simpl.
  rewrite length_alter, <- !app_assoc. split; [done|].
  destruct (sockets w !! s) as [ws|] eqn:Hws; [|done].
  rewrite lookup_app_l by (rewrite length_alter; by eapply lookup_lt_Some).
  by rewrite list_lookup_alter_eq, Hws.
Qed.

(** A transition out of a session whose socket is not OPEN touches neither
    the socket nor the reference to it. *)
Lemma set_state_keeps_unopened_socket (w : World) :
  (∀ s, ¬ connected w s) →
  socket (set_state "channel-choice" w).2 = socket w ∧
  sockets (set_state "channel-choice" w).2 = sockets w ∧
  effects (set_state "channel-choice" w).2 =
    (effects w ++ [ReplaceChildren ChannelChoiceMenu])%list.
Proof. intros Hno. by rewrite set_state_channel_choice. Qed.

Lemma handleClick_change_channel (w : World) :
  handleClick (Some "change-channel") w = set_state "channel-choice" w.
Proof. reflexivity. Qed.

Lemma handleChannelChoiceFormSubmit_accepts (form : Form) (c : string) (w : World) :
  FormData_get "channel" (entries form) = Some c → c ≠ "" →
  handleChannelChoiceFormSubmit form w = set_state "chat" (with_channel c w).
Proof.
  intros Hget Hne. unfold handleChannelChoiceFormSubmit. rewrite Hget.
  unfold truthy. by rewrite bool_decide_eq_false_2.
Qed.

Lemma handleAuthFormSubmit_accepts (form : Form) (u : string) (w : World) :
  FormData_get "username" (entries form) = Some u → u ≠ "" →
  handleAuthFormSubmit form w =
    (set_username
       (Some (u, truthy (FormData_get "remember-me" (entries form))));;
     set_state "channel-choice")%chat w.
Proof.
  intros Hget Hne. unfold handleAuthFormSubmit. rewrite Hget.
  unfold truthy at 1. by rewrite bool_decide_eq_false_2.
Qed.

Lemma closeConnection_frame (event : bool) (w : World) :
  same_session w (closeConnection event w).2 ∧
  _state (closeConnection event w).2 = _state w.
Proof.
  unfold closeConnection, same_session.
  destruct (socket w) as [s|]; [|done].
  destruct (is_OPEN w s); [|done]. by destruct event.
Qed.

Lemma set_state_frame (value : string) (w : World) :
  same_session w (set_state value w).2 ∧
  (value ≠ "username-choice" → _state (set_state value w).2 = Some value).
Proof.
  unfold set_state. simpl. unfold_M.
  pose proof (closeConnection_Ok false (with_state (Some value) w)) as Hok.
  pose proof (closeConnection_frame false (with_state (Some value) w)) as Hfr.
  destruct (closeConnection false (with_state (Some value) w)) as [r w1].
  simpl in Hok, Hfr. subst r. destruct Hfr as ((Hu & Hc & Hm & Hl) & Hst).
  unfold renderBody_with, same_session.
  repeat case_bool_decide; unfold_M; simpl; try done.
  destruct (truthy _); [|done].
  match goal with |- context [closeConnection false ?w'] =>
    pose proof (closeConnection_Ok false w') as Hok;
    pose proof (closeConnection_frame false w') as Hfr;
    destruct (closeConnection false w') as [r w2] end.
  simpl in Hok, Hfr. subst r. destruct Hfr as ((Hu' & Hc' & Hm' & Hl') & _).
  simpl in *. split; [|done]. repeat split; congruence.
Qed.

Lemma not_truthy_empty (v : option string) : empty v → truthy v = false.
Proof. by intros [-> | ->]. Qed.

Section WithJSON.
Context `{JSON}.

Lemma handleSubmit_channel_form (entries : list (string * string)) (w : World) :
  handleSubmit (mkForm "channel-form" entries) w =
    handleChannelChoiceFormSubmit (mkForm "channel-form" entries)
      (emit PreventDefault w).
Proof. reflexivity. Qed.

(** C9.  renderBody throws Error('Invalid state') for a state other than
    the three it knows, before it touches the body, and so does the state
    setter that calls it; handleSubmit throws
    Error('Unhandled form submission') for a form whose id is none of
    auth-form, channel-form, message-form.  Neither catches the error. *)
Theorem C9_unrecognized_is_fatal :
  (∀ (state : string) (w : World),
     state ≠ "username-choice" → state ≠ "channel-choice" → state ≠ "chat" →
     renderBody state w = (Throw (Error "Invalid state"), w) ∧
     (set_state state w).1 = Throw (Error "Invalid state")) ∧
  (∀ (form : Form) (w : World),
     id form ≠ "auth-form" → id form ≠ "channel-form" → id form ≠ "message-form" →
     handleSubmit form w =
       (Throw (Error "Unhandled form submission"), emit PreventDefault w)).
Proof.
  split.
  - intros state w H1 H2 H3.
    assert (∀ f w', renderBody_with f state w' = (Throw (Error "Invalid state"), w'))
      as Hrender.
    { intros f w'. unfold renderBody_with.
      by rewrite !bool_decide_eq_false_2. }
    split; [apply Hrender|].
    unfold set_state. simpl. unfold_M.
    pose proof (closeConnection_Ok false (with_state (Some state) w)) as Hc.
    destruct (closeConnection false (with_state (Some state) w)) as [r w1].
    simpl in Hc. subst r. by rewrite Hrender.
  - intros form w H1 H2 H3. unfold handleSubmit. unfold_M.
    by rewrite !bool_decide_eq_false_2.
Qed.

(** *** sendMessage *)

(** C7.  Without a connection in the OPEN state sendMessage only logs an
    error: nothing is sent, nothing is kept for later.  With one it makes
    exactly one call of socket.send, whose argument is the JSON text of
    { type: 'message', data, username, channel, key } with the fixed
    apiKey as key. *)
Theorem C7_sendMessage_only_when_open (data : string) (w : World) :
  ((∀ s, ¬ connected w s) →
   sendMessage data w =
     (Ok tt, emit (ConsoleError "Cannot send message: WebSocket is not open.") w)) ∧
  (∀ s, connected w s →
   sendMessage data w =
     (Ok tt, emit (SocketSend s
                     (JSON_stringify_message
                        (Message.mk (Some "message") (Some data) (username w)
                                    (Some (channel w))
                                    (Some "eDBE76deU7L0H9mEBgxUKVR0VCnq0XBd"))))
               w)).
Proof.
  unfold sendMessage, connected. split.
  - intros Hno. destruct (socket w) as [s|] eqn:Hs; [|done].
    destruct (is_OPEN w s) eqn:Hopen; [|done].
    destruct (Hno s). split; [done|]. by apply is_OPEN_spec.
  - intros s [Hs Hopen]. apply is_OPEN_spec in Hopen. by rewrite Hs, Hopen.
Qed.

(** *** handleMessage *)

Lemma createMessageElement_rendered (m : Message.t) (w : World) :
  createMessageElement m w =
    match rendered m with
    | Some el => (Ok el, w)
    | None => (Throw TypeError, w)
    end.
Proof.
  unfold createMessageElement, rendered.
  destruct (Message.username m) as [u|]; simpl; [|done].
  by destruct (bool_decide _).
Qed.

Lemma handleMessage_heartbeat (payload : string) (m : Message.t) (w : World) :
  JSON_parse_message payload = Some m →
  Message.type m = Some "heartbeat" →
  handleMessage payload w = (Ok tt, w).
Proof.
  intros Hparse Hty. unfold handleMessage. rewrite Hparse.
  by rewrite bool_decide_eq_false_2 by (by intros []).
Qed.

Lemma handleMessage_appends (payload : string) (m : Message.t) (el : Element)
    (els : list Element) (w : World) :
  JSON_parse_message payload = Some m →
  Message.type m ≠ Some "heartbeat" →
  rendered m = Some el →
  messageListElement w = Some els →
  handleMessage payload w =
    (Ok tt,
     emit ScrollToBottom
       (with_messageListElement (Some (els ++ [el])%list)
          (with_localStorage
             (<[channel w := JSON_stringify (messages w ++ [m])%list]> (localStorage w))
             (with_messages (messages w ++ [m])%list w)))).
Proof.
  intros Hparse Hty Hel Hmle. unfold handleMessage. rewrite Hparse.
  rewrite bool_decide_eq_true_2 by done.
  unfold push, persist, appendChild, scrollToBottom. unfold_M.
  rewrite createMessageElement_rendered, Hel. simpl. by rewrite Hmle.
Qed.

(** createMessageElement returns a node exactly for the messages that
    carry a username. *)
Lemma rendered_is_Some (m : Message.t) :
  is_Some (rendered m) ↔ is_Some (Message.username m).
Proof.
  unfold rendered. destruct (Message.username m) as [u|]; simpl.
  - split; intros _; by eexists.
  - split; intros [x Hx]; discriminate Hx.
Qed.

(** Without a username on the message, or without a render target, the
    handler throws after the push and the setItem. *)
Lemma handleMessage_unrendered (payload : string) (m : Message.t) (w : World) :
  JSON_parse_message payload = Some m →
  Message.type m ≠ Some "heartbeat" →
  rendered m = None ∨ messageListElement w = None →
  handleMessage payload w =
    (Throw TypeError,
     with_localStorage
       (<[channel w := JSON_stringify (messages w ++ [m])%list]> (localStorage w))
       (with_messages (messages w ++ [m])%list w)).
Proof.
  intros Hparse Hty Hno. unfold handleMessage. rewrite Hparse.
  rewrite bool_decide_eq_true_2 by done.
  unfold push, persist, appendChild, scrollToBottom. unfold_M.
  rewrite createMessageElement_rendered. simpl.
  destruct (rendered m) as [el|]; simpl; [|done].
  destruct Hno as [Hno|Hno]; [done|]. by rewrite Hno.
Qed.

(** Whatever happens to the rendering, a message that is not a heartbeat
    is pushed and the log persisted before anything can throw. *)
Lemma handleMessage_log (payload : string) (m : Message.t) (w : World) :
  JSON_parse_message payload = Some m →
  Message.type m ≠ Some "heartbeat" →
  let w' := (handleMessage payload w).2 in
  messages w' = (messages w ++ [m])%list ∧
  channel w' = channel w ∧
  localStorage w' =
    <[channel w := JSON_stringify (messages w ++ [m])%list]> (localStorage w).
Proof.
  intros Hparse Hty. unfold handleMessage. rewrite Hparse.
  rewrite bool_decide_eq_true_2 by done.
  unfold push, persist, appendChild, scrollToBottom. unfold_M.
  rewrite createMessageElement_rendered. simpl.
  destruct (rendered m); simpl; [|done].
  by destruct (messageListElement w).
Qed.

(** C10.  sendMessage leaves the message log, localStorage and the render
    target as they are; the text shows up locally when the server sends it
    back and handleMessage handles it like any other inbound message. *)
Theorem C10_sendMessage_frame (data : string) (w : World) :
  let w' := (sendMessage data w).2 in
  messages w' = messages w ∧
  localStorage w' = localStorage w ∧
  messageListElement w' = messageListElement w ∧
  channel w' = channel w ∧
  ∀ (payload : string) (m : Message.t) (el : Element) (els : list Element),
    JSON_parse_message payload = Some m →
    Message.type m = Some "message" →
    rendered m = Some el →
    messageListElement w = Some els →
    let w'' := (handleMessage payload w').2 in
    messages w'' = (messages w ++ [m])%list ∧
    localStorage w'' =
      <[channel w := JSON_stringify (messages w ++ [m])%list]> (localStorage w) ∧
    messageListElement w'' = Some (els ++ [el])%list.
Proof.
  assert (messages (sendMessage data w).2 = messages w ∧
          localStorage (sendMessage data w).2 = localStorage w ∧
          messageListElement (sendMessage data w).2 = messageListElement w ∧
          channel (sendMessage data w).2 = channel w) as (Hm & Hs & Hl & Hc).
  { unfold sendMessage. destruct (socket w) as [s|]; [|done].
    by destruct (is_OPEN w s). }
  simpl. repeat (split; [done|]).
  intros payload m el els Hparse Hty Hel Hmle.
  rewrite (handleMessage_appends payload m el els) by (congruence || done).
  simpl. by rewrite Hm, Hs, Hc.
Qed.

Lemma handleMessage_keeps_heartbeat_free (payload : string) (w : World) :
  heartbeat_free (messages w) → persisted_heartbeat_free w →
  heartbeat_free (messages (handleMessage payload w).2) ∧
  persisted_heartbeat_free (handleMessage payload w).2.
Proof.
  intros Hlog Hstored.
  destruct (JSON_parse_message payload) as [m|] eqn:Hparse.
  - destruct (decide (Message.type m = Some "heartbeat")) as [Hty|Hty].
    + by rewrite (handleMessage_heartbeat payload m w).
    + destruct (handleMessage_log payload m w Hparse Hty) as (Hm & Hc & Hs).
      assert (heartbeat_free (messages w ++ [m])) as Hfree.
      { apply Forall_app. split; [done|]. by apply Forall_singleton. }
      split; [by rewrite Hm|].
      intros text. rewrite Hc, Hs, lookup_insert_eq. intros [= <-].
      by exists (messages w ++ [m])%list.
  - unfold handleMessage. by rewrite Hparse.
Qed.

Lemma handleMessages_cons (payload : string) (payloads : list string) (w : World) :
  handleMessages (payload :: payloads) w =
    handleMessages payloads (handleMessage payload w).2.
Proof. done. Qed.

Lemma handleMessages_skip_heartbeats (payloads : list string) :
  ∀ w : World,
    handleMessages payloads w =
      handleMessages (filter (λ d, is_heartbeat d = false) payloads) w.
Proof.
  induction payloads as [|d ds IH]; intros w; [done|].
  rewrite filter_cons. destruct (decide (is_heartbeat d = false)) as [Hd|Hd].
  - rewrite !handleMessages_cons. apply IH.
  - rewrite handleMessages_cons, <- IH. f_equal.
    unfold is_heartbeat in Hd.
    destruct (JSON_parse_message d) as [m|] eqn:Hparse; [|done].
    case_bool_decide; [|done]. by rewrite (handleMessage_heartbeat d m w).
Qed.

Lemma handleMessages_keep_heartbeat_free (payloads : list string) :
  ∀ w : World,
    heartbeat_free (messages w) → persisted_heartbeat_free w →
    heartbeat_free (messages (handleMessages payloads w)) ∧
    persisted_heartbeat_free (handleMessages payloads w).
Proof.
  induction payloads as [|d ds IH]; intros w Hlog Hstored; [done|].
  rewrite handleMessages_cons.
  destruct (handleMessage_keeps_heartbeat_free d w Hlog Hstored).
  by apply IH.
Qed.

(** C4.  A heartbeat leaves the log, localStorage and the render target as
    they are, so a run of the handler over any payloads equals the run over
    the payloads that are not heartbeats, and a heartbeat-free log and
    stored entry stay heartbeat-free.  A message of another type is pushed
    on the log and the whole log is stored under the current channel; its
    element is appended to the render target when there is a render target
    and the message carries the username that createMessageElement reads.
    Without the one or the other the handler throws a TypeError after the
    push and the setItem, and the render target is left as it was. *)
Theorem C4_heartbeats_dropped_others_kept :
  (∀ (payload : string) (m : Message.t) (w : World),
     JSON_parse_message payload = Some m →
     Message.type m = Some "heartbeat" →
     handleMessage payload w = (Ok tt, w)) ∧
  (∀ (payloads : list string) (w : World),
     handleMessages payloads w =
       handleMessages (filter (λ d, is_heartbeat d = false) payloads) w) ∧
  (∀ (payloads : list string) (w : World),
     heartbeat_free (messages w) → persisted_heartbeat_free w →
     heartbeat_free (messages (handleMessages payloads w)) ∧
     persisted_heartbeat_free (handleMessages payloads w)) ∧
  (∀ (payload : string) (m : Message.t) (w : World),
     JSON_parse_message payload = Some m →
     Message.type m ≠ Some "heartbeat" →
     messages (handleMessage payload w).2 = (messages w ++ [m])%list ∧
     localStorage (handleMessage payload w).2 =
       <[channel w := JSON_stringify (messages w ++ [m])%list]> (localStorage w) ∧
     (∀ (el : Element) (els : list Element),
        rendered m = Some el →
        messageListElement w = Some els →
        (handleMessage payload w).1 = Ok tt ∧
        messageListElement (handleMessage payload w).2 = Some (els ++ [el])%list) ∧
     (rendered m = None ∨ messageListElement w = None →
      (handleMessage payload w).1 = Throw TypeError ∧
      messageListElement (handleMessage payload w).2 = messageListElement w ∧
      effects (handleMessage payload w).2 = effects w)).
Proof.
  split; [exact handleMessage_heartbeat|].
  split; [intros; apply handleMessages_skip_heartbeats|].
  split; [intros; by apply handleMessages_keep_heartbeat_free|].
  intros payload m w Hparse Hty.
  destruct (handleMessage_log payload m w Hparse Hty) as (Hm & _ & Hs).
  split; [done|]. split; [done|]. split.
  - intros el els Hel Hmle.
    by rewrite (handleMessage_appends payload m el els w).
  - intros Hno. by rewrite (handleMessage_unrendered payload m w).
Qed.

(** *** handleClose and handleOpen *)

Lemma handleClose_spec (w : World) :
  handleClose w =
    (Ok tt,
     with_socket None
       (with_messages []
          (with_localStorage
             (<[channel w := JSON_stringify (messages w ++ [disconnect_notice])%list]>
                (localStorage w))
             (with_messages (messages w ++ [disconnect_notice])%list
                (emit (ConsoleLog "Connection closed.") w))))).
Proof. reflexivity. Qed.

Lemma forEach_stored_replays (l : list Message.t) :
  ∀ (rs els : list Element) (w : World),
    mapM rendered l = Some rs →
    messageListElement w = Some els →
    forEach_stored l w =
      (Ok tt, with_messageListElement (Some (els ++ rs)%list)
                (with_messages (messages w ++ l)%list w)).
Proof.
  induction l as [|m l IH]; intros rs els w Hrs Hmle.
  - simpl in Hrs. injection Hrs as <-. simpl. unfold_M.
    rewrite !app_nil_r. destruct w. simpl in *. by subst.
  - simpl in Hrs.
    destruct (rendered m) as [el|] eqn:Hel; [|done].
    destruct (mapM rendered l) as [rs'|] eqn:Hrs'; [|done].
    simpl in Hrs. injection Hrs as <-.
    simpl. unfold push, appendChild. unfold_M.
    rewrite createMessageElement_rendered, Hel. simpl. rewrite Hmle.
    rewrite (IH rs' (els ++ [el])%list) by done.
    destruct w. simpl. by rewrite <- !app_assoc.
Qed.

(** The replay loop writes neither localStorage, the channel nor the
    sockets, and pushes a prefix of the stored log. *)
Lemma forEach_stored_frame (l : list Message.t) :
  ∀ w : World,
    localStorage (forEach_stored l w).2 = localStorage w ∧
    channel (forEach_stored l w).2 = channel w ∧
    socket (forEach_stored l w).2 = socket w ∧
    sockets (forEach_stored l w).2 = sockets w ∧
    ∃ k, messages (forEach_stored l w).2 = (messages w ++ take k l)%list.
Proof.
  induction l as [|m l IH]; intros w.
  - simpl. repeat split. exists 0. by rewrite app_nil_r.
  - simpl. unfold push, appendChild. unfold_M.
    rewrite createMessageElement_rendered.
    destruct (rendered m) as [el|];
      [|simpl; repeat split; by exists 1].
    simpl. destruct (messageListElement w) as [els|];
      [|simpl; repeat split; by exists 1].
    match goal with |- context [forEach_stored l ?w1] =>
      destruct (IH w1) as (Hl & Hc & Hs & Hss & k & Hm) end.
    rewrite Hl, Hc, Hs, Hss, Hm. simpl. repeat split.
    exists (S k). by rewrite <- app_assoc.
Qed.

(** handleOpen reads localStorage and never writes it. *)
Lemma handleOpen_store (w : World) :
  localStorage (handleOpen w).2 = localStorage w.
Proof.
  unfold handleOpen. unfold_M. simpl.
  destruct (localStorage w !! channel w) as [text|]; [|done].
  destruct (JSON_parse text) as [l|]; [|done].
  match goal with |- context [forEach_stored l ?w1] =>
    destruct (forEach_stored_frame l w1) as (Hl & _) end.
  by rewrite Hl.
Qed.

Lemma handleOpen_replays (text : string) (l : list Message.t)
    (rs els : list Element) (w : World) :
  localStorage w !! channel w = Some text →
  JSON_parse text = Some l →
  mapM rendered l = Some rs →
  messageListElement w = Some els →
  handleOpen w =
    (Ok tt, with_messageListElement (Some (els ++ rs)%list)
              (with_messages (messages w ++ l)%list
                 (emit (ConsoleLog "Connection with the server established.") w))).
Proof.
  intros Htext Hparse Hrs Hmle. unfold handleOpen. unfold_M. simpl.
  rewrite Htext, Hparse. by rewrite (forEach_stored_replays l rs els).
Qed.

(** C3, as the code has it.  In a session connected on channel ch with an
    empty log, two messages that carry a username (createMessageElement
    reads it) arrive and the connection closes: handleClose stores
    [m1, m2, notice] under ch, empties the log and drops the socket.  The
    user then goes back to the channel form and submits ch again; when the
    new socket opens, handleOpen puts the elements of m1, m2 and the
    notice, in that order, into the fresh render target, the log is
    [m1, m2, notice], and localStorage is what the disconnect left:
    handleOpen writes localStorage in no world at all. *)
Theorem C3_replay_round_trip (w : World) (s : nat) (ch p1 p2 : string)
    (m1 m2 : Message.t) (e1 e2 : Element) (els : list Element) :
  connected w s → channel w = ch → ch ≠ "" →
  messages w = [] → messageListElement w = Some els →
  JSON_parse_message p1 = Some m1 → JSON_parse_message p2 = Some m2 →
  Message.type m1 ≠ Some "heartbeat" → Message.type m2 ≠ Some "heartbeat" →
  rendered m1 = Some e1 → rendered m2 = Some e2 →
  JSON_parse (JSON_stringify [m1; m2; disconnect_notice])
    = Some [m1; m2; disconnect_notice] →
  ∃ w3 w6 : World,
    steps [SocketEv s (on_message p1); SocketEv s (on_message p2);
           SocketEv s on_close] w = Some w3 ∧
    messages w3 = [] ∧ socket w3 = None ∧
    localStorage w3 !! ch = Some (JSON_stringify [m1; m2; disconnect_notice]) ∧
    steps [Click (Some "change-channel");
           Submit (mkForm "channel-form" [("channel", ch)]);
           SocketEv (length (sockets w)) on_open] w3 = Some w6 ∧
    messageListElement w6
      = Some [e1; e2; ServerMessage (Some "You are disconnected!")] ∧
    messages w6 = [m1; m2; disconnect_notice] ∧
    localStorage w6 = localStorage w3 ∧
    ∀ w' : World, localStorage (handleOpen w').2 = localStorage w'.
Proof.
  intros [Hs Hopen] Hch Hne Hlog Hmle Hp1 Hp2 Ht1 Ht2 He1 He2 Hjson.
  destruct (sockets w !! s) as [ws|] eqn:Hws; [|done].
  simpl in Hopen. injection Hopen as Hopen.
  destruct w as [st un so chn msgs mle btn bd ls socks effs].
  simpl in *. subst so chn msgs mle.
  eexists _, _. split.
  { simpl. unfold fire. simpl. rewrite Hws. simpl. rewrite Hopen. simpl.
    rewrite (handleMessage_appends p1 m1 e1 els) by done. simpl.
    rewrite Hws. simpl. rewrite Hopen. simpl.
    rewrite (handleMessage_appends p2 m2 e2 (els ++ [e1])) by done. simpl.
    rewrite Hws. simpl. rewrite Hopen.
    unfold handleClose, push, persist. unfold_M. norm_world. reflexivity. }
  norm_world. rewrite lookup_insert_eq.
  do 3 (split; [reflexivity|]).
  unfold steps, step.
  rewrite handleClick_change_channel, set_state_channel_choice
    by (intros s0 [[=] _]).
  unfold snd at 2. simpl.
  rewrite handleSubmit_channel_form.
  rewrite (handleChannelChoiceFormSubmit_accepts _ ch) by done.
  rewrite set_state_chat by (intros s0 [[=] _]).
  norm_world. unfold fire. cbn [snd]. norm_world.
  rewrite lookup_app_r by (by rewrite length_alter).
  rewrite length_alter, Nat.sub_diag. simpl.
  assert (mapM rendered [m1; m2; disconnect_notice]
            = Some [e1; e2; ServerMessage (Some "You are disconnected!")]) as Hrs.
  { simpl. by rewrite He1, He2. }
  erewrite (handleOpen_replays _ _ _ []); [| |exact Hjson|exact Hrs|reflexivity].
  - norm_world. do 4 (split; [reflexivity|]). exact handleOpen_store.
  - norm_world. apply lookup_insert_eq.
Qed.

(** *** Form submissions *)

(** C6, as the code has it.  A submission whose field is empty (no value,
    or the empty string) is dropped by the handler of its form: apart from
    the preventDefault of handleSubmit the world is unchanged, so there is
    no transition, no username or channel assignment and no call of the
    socket.  The handlers test the value for truthiness only: any other
    username or channel, also one made of whitespace, is assigned and
    moves the state machine on. *)
Theorem C6_empty_submissions_rejected :
  (∀ (form : Form) (w : World),
     id form = "auth-form" → empty (FormData_get "username" (entries form)) →
     handleSubmit form w = (Ok tt, emit PreventDefault w)) ∧
  (∀ (form : Form) (w : World),
     id form = "channel-form" → empty (FormData_get "channel" (entries form)) →
     handleSubmit form w = (Ok tt, emit PreventDefault w)) ∧
  (∀ (form : Form) (w : World),
     id form = "message-form" → empty (FormData_get "message" (entries form)) →
     handleSubmit form w = (Ok tt, emit PreventDefault w)) ∧
  (∀ (form : Form) (u : string) (w : World),
     id form = "auth-form" →
     FormData_get "username" (entries form) = Some u → u ≠ "" →
     _username (handleSubmit form w).2 = Some u ∧
     _state (handleSubmit form w).2 = Some "channel-choice") ∧
  (∀ (form : Form) (c : string) (w : World),
     id form = "channel-form" →
     FormData_get "channel" (entries form) = Some c → c ≠ "" →
     channel (handleSubmit form w).2 = c ∧
     _state (handleSubmit form w).2 = Some "chat").
Proof.
  split; [|split; [|split; [|split]]].
  - intros form w Hid Hempty. unfold handleSubmit. unfold_M. rewrite Hid. simpl.
    unfold handleAuthFormSubmit. rewrite (not_truthy_empty _ Hempty).
    by destruct (FormData_get "username" (entries form)).
  - intros form w Hid Hempty. unfold handleSubmit. unfold_M. rewrite Hid. simpl.
    unfold handleChannelChoiceFormSubmit. rewrite (not_truthy_empty _ Hempty).
    by destruct (FormData_get "channel" (entries form)).
  - intros form w Hid Hempty. unfold handleSubmit. unfold_M. rewrite Hid. simpl.
    unfold handleMessageFormSubmit. rewrite (not_truthy_empty _ Hempty).
    by destruct (FormData_get "message" (entries form)).
  - intros form u w Hid Hget Hne. unfold handleSubmit. unfold_M. rewrite Hid. simpl.
    rewrite (handleAuthFormSubmit_accepts form u) by done.
    unfold set_username. unfold_M.
    destruct (truthy (FormData_get "remember-me" (entries form))); simpl;
      match goal with |- context [set_state "channel-choice" ?w'] =>
        destruct (set_state_frame "channel-choice" w') as ((Hu & _) & Hst)
      end; (split; [by rewrite Hu | by apply Hst]).
  - intros form c w Hid Hget Hne. unfold handleSubmit. unfold_M. rewrite Hid. simpl.
    rewrite (handleChannelChoiceFormSubmit_accepts form c) by done.
    match goal with |- context [set_state "chat" ?w'] =>
      destruct (set_state_frame "chat" w') as ((_ & Hc & _) & Hst) end.
    split; [by rewrite Hc | by apply Hst].
Qed.

End WithJSON.

(** *** Closed instances, over the example JSON format *)

Import ExampleJSON.

(** C9 on the example session: a state and a form id the code does not
    know. *)
Lemma C9_unrecognized_is_fatal_witness :
  (renderBody "settings" chatting = (Throw (Error "Invalid state"), chatting) ∧
   (set_state "settings" chatting).1 = Throw (Error "Invalid state")) ∧
  handleSubmit (mkForm "search-form" []) chatting =
    (Throw (Error "Unhandled form submission"), emit PreventDefault chatting).
Proof.
  split.
  - apply (proj1 C9_unrecognized_is_fatal "settings" chatting); discriminate.
  - apply (proj2 C9_unrecognized_is_fatal (mkForm "search-form" []) chatting);
      discriminate.
Defined.

(** C7 on the example session, before and after its socket has opened. *)
Lemma C7_sendMessage_only_when_open_witness :
  sendMessage "hi" connecting =
    (Ok tt, emit (ConsoleError "Cannot send message: WebSocket is not open.")
              connecting) ∧
  sendMessage "hi" chatting =
    (Ok tt, emit (SocketSend 0
                    (JSON_stringify_message
                       (Message.mk (Some "message") (Some "hi") (username chatting)
                                   (Some (channel chatting))
                                   (Some "eDBE76deU7L0H9mEBgxUKVR0VCnq0XBd"))))
              chatting).
Proof.
  split.
  - apply (proj1 (C7_sendMessage_only_when_open "hi" connecting)).
    intros s [Hs Hopen]. vm_compute in Hs. injection Hs as <-.
    vm_compute in Hopen. discriminate.
  - apply (proj2 (C7_sendMessage_only_when_open "hi" chatting) 0).
    split; reflexivity.
Defined.

(** C10 on the example session: al sends hello and the server echoes it. *)
Lemma C10_sendMessage_frame_witness :
  let w' := (sendMessage "hello" chatting).2 in
  let w'' := (handleMessage (JSON_stringify_message m1) w').2 in
  messages w'' = (messages chatting ++ [m1])%list ∧
  localStorage w'' =
    <[channel chatting := JSON_stringify (messages chatting ++ [m1])%list]>
      (localStorage chatting) ∧
  messageListElement w'' = Some ([] ++ [UserMessage "al:" (Some "hello")])%list.
Proof.
  apply (proj2 (proj2 (proj2 (proj2 (C10_sendMessage_frame "hello" chatting))))
           (JSON_stringify_message m1) m1 (UserMessage "al:" (Some "hello")) []);
    reflexivity.
Defined.

(** C4 on the example session: a heartbeat, then a server notification. *)
Lemma C4_heartbeats_dropped_others_kept_witness :
  handleMessage (JSON_stringify_message heartbeat) chatting = (Ok tt, chatting) ∧
  (heartbeat_free
     (messages (handleMessages [JSON_stringify_message heartbeat;
                                JSON_stringify_message m2] chatting)) ∧
   persisted_heartbeat_free
     (handleMessages [JSON_stringify_message heartbeat;
                      JSON_stringify_message m2] chatting)) ∧
  (messages (handleMessage (JSON_stringify_message m2) chatting).2
     = (messages chatting ++ [m2])%list ∧
   localStorage (handleMessage (JSON_stringify_message m2) chatting).2 =
     <[channel chatting := JSON_stringify (messages chatting ++ [m2])%list]>
       (localStorage chatting)) ∧
  ((handleMessage (JSON_stringify_message m2) chatting).1 = Ok tt ∧
   messageListElement (handleMessage (JSON_stringify_message m2) chatting).2
     = Some ([] ++ [ServerMessage (Some "bo joined")])%list) ∧
  ((handleMessage (JSON_stringify_message anonymous) chatting).1 = Throw TypeError ∧
   messageListElement (handleMessage (JSON_stringify_message anonymous) chatting).2
     = messageListElement chatting ∧
   effects (handleMessage (JSON_stringify_message anonymous) chatting).2
     = effects chatting).
Proof.
  split; [|split; [|split; [|split]]].
  - apply (proj1 C4_heartbeats_dropped_others_kept
             (JSON_stringify_message heartbeat) heartbeat chatting); reflexivity.
  - apply (proj1 (proj2 (proj2 C4_heartbeats_dropped_others_kept))
             [JSON_stringify_message heartbeat; JSON_stringify_message m2] chatting).
    + constructor.
    + intros text Htext. vm_compute in Htext. discriminate Htext.
  - assert (JSON_parse_message (JSON_stringify_message m2) = Some m2) as Hparse
      by reflexivity.
    assert (Message.type m2 ≠ Some "heartbeat") as Hty by discriminate.
    destruct (proj2 (proj2 (proj2 C4_heartbeats_dropped_others_kept))
                (JSON_stringify_message m2) m2 chatting Hparse Hty)
      as (Hm & Hs & _).
    by split.
  - assert (JSON_parse_message (JSON_stringify_message m2) = Some m2) as Hparse
      by reflexivity.
    assert (Message.type m2 ≠ Some "heartbeat") as Hty by discriminate.
    destruct (proj2 (proj2 (proj2 C4_heartbeats_dropped_others_kept))
                (JSON_stringify_message m2) m2 chatting Hparse Hty)
      as (_ & _ & Hrender & _).
    apply (Hrender (ServerMessage (Some "bo joined")) []); reflexivity.
  - assert (JSON_parse_message (JSON_stringify_message anonymous) = Some anonymous)
      as Hparse by reflexivity.
    assert (Message.type anonymous ≠ Some "heartbeat") as Hty by discriminate.
    destruct (proj2 (proj2 (proj2 C4_heartbeats_dropped_others_kept))
                (JSON_stringify_message anonymous) anonymous chatting Hparse Hty)
      as (_ & _ & _ & Hthrow).
    apply Hthrow. by left.
Defined.

(** C4 as first stated fails: a message of type message that has no
    username is pushed on the log and stored, and createMessageElement then
    throws on message.username.toLowerCase(): nothing is appended to the
    render target of the chat. *)
Lemma C4_counterexample :
  ¬ (∀ (payload : string) (m : Message.t) (w : World) (els : list Element),
       JSON_parse_message payload = Some m →
       Message.type m ≠ Some "heartbeat" →
       messageListElement w = Some els →
       ∃ el, messageListElement (handleMessage payload w).2 = Some (els ++ [el])%list).
Proof.
  intros Hclaim.
  destruct (Hclaim (JSON_stringify_message anonymous) anonymous chatting [])
    as [el Hel]; [reflexivity | discriminate | reflexivity |].
  vm_compute in Hel. discriminate Hel.
Qed.

(** C3 on the example session: al's message and a server notification
    arrive on channel c, the connection closes, the user reconnects. *)
Lemma C3_replay_round_trip_witness :
  ∃ w3 w6 : World,
    steps [SocketEv 0 (on_message (JSON_stringify_message m1));
           SocketEv 0 (on_message (JSON_stringify_message m2));
           SocketEv 0 on_close] chatting = Some w3 ∧
    messages w3 = [] ∧ socket w3 = None ∧
    localStorage w3 !! "c" = Some (JSON_stringify [m1; m2; disconnect_notice]) ∧
    steps [Click (Some "change-channel");
           Submit (mkForm "channel-form" [("channel", "c")]);
           SocketEv (length (sockets chatting)) on_open] w3 = Some w6 ∧
    messageListElement w6
      = Some [UserMessage "al:" (Some "hello"); ServerMessage (Some "bo joined");
              ServerMessage (Some "You are disconnected!")] ∧
    messages w6 = [m1; m2; disconnect_notice] ∧
    localStorage w6 = localStorage w3.
Proof.
  destruct (C3_replay_round_trip chatting 0 "c"
              (JSON_stringify_message m1) (JSON_stringify_message m2) m1 m2
              (UserMessage "al:" (Some "hello")) (ServerMessage (Some "bo joined")) [])
    as (w3 & w6 & H3 & Hlog3 & Hsock3 & Hstore3 & H6 & Hels & Hlog6 & Hstore6 & _);
    [first [by vm_compute | split; by vm_compute]..|].
  exists w3, w6. do 7 (split; [assumption|]). assumption.
Defined.

(** C3 as first stated fails: a message of type message that has no
    username is pushed and stored by handleMessage like any other, the
    disconnect stores [anonymous, m2, notice], and on reconnecting the
    replay pushes the first entry and throws in createMessageElement: the
    log holds one entry instead of the three that are stored. *)
Lemma C3_counterexample :
  ¬ (∀ (w : World) (s : nat) (ch p1 p2 : string) (m1 m2 : Message.t)
       (els : list Element),
       connected w s → channel w = ch → ch ≠ "" →
       messages w = [] → messageListElement w = Some els →
       JSON_parse_message p1 = Some m1 → JSON_parse_message p2 = Some m2 →
       Message.type m1 ≠ Some "heartbeat" → Message.type m2 ≠ Some "heartbeat" →
       JSON_parse (JSON_stringify [m1; m2; disconnect_notice])
         = Some [m1; m2; disconnect_notice] →
       ∃ w3 w6 : World,
         steps [SocketEv s (on_message p1); SocketEv s (on_message p2);
                SocketEv s on_close] w = Some w3 ∧
         localStorage w3 !! ch = Some (JSON_stringify [m1; m2; disconnect_notice]) ∧
         steps [Click (Some "change-channel");
                Submit (mkForm "channel-form" [("channel", ch)]);
                SocketEv (length (sockets w)) on_open] w3 = Some w6 ∧
         messages w6 = [m1; m2; disconnect_notice]).
Proof.
  intros Hclaim.
  destruct (Hclaim chatting 0 "c"
              (JSON_stringify_message anonymous) (JSON_stringify_message m2)
              anonymous m2 [])
    as (w3 & w6 & H3 & _ & H6 & Hlog);
    [first [by vm_compute | split; by vm_compute]..|].
  vm_compute in H3. injection H3 as <-.
  vm_compute in H6. injection H6 as <-.
  vm_compute in Hlog. discriminate Hlog.
Qed.

(** C6 on the example session: three empty submissions, then a username
    and a channel of one space. *)
Lemma C6_empty_submissions_rejected_witness :
  handleSubmit (mkForm "auth-form" [("username", "")]) chatting
    = (Ok tt, emit PreventDefault chatting) ∧
  handleSubmit (mkForm "channel-form" [("channel", "")]) chatting
    = (Ok tt, emit PreventDefault chatting) ∧
  handleSubmit (mkForm "message-form" []) chatting
    = (Ok tt, emit PreventDefault chatting) ∧
  (_username (handleSubmit (mkForm "auth-form" [("username", " ")]) chatting).2
     = Some " " ∧
   _state (handleSubmit (mkForm "auth-form" [("username", " ")]) chatting).2
     = Some "channel-choice") ∧
  (channel (handleSubmit (mkForm "channel-form" [("channel", " ")]) chatting).2 = " " ∧
   _state (handleSubmit (mkForm "channel-form" [("channel", " ")]) chatting).2
     = Some "chat").
Proof.
  split; [|split; [|split; [|split]]].
  - apply (proj1 C6_empty_submissions_rejected
             (mkForm "auth-form" [("username", "")]) chatting);
      [reflexivity | by right].
  - apply (proj1 (proj2 C6_empty_submissions_rejected)
             (mkForm "channel-form" [("channel", "")]) chatting);
      [reflexivity | by right].
  - apply (proj1 (proj2 (proj2 C6_empty_submissions_rejected))
             (mkForm "message-form" []) chatting);
      [reflexivity | by left].
  - apply (proj1 (proj2 (proj2 (proj2 C6_empty_submissions_rejected)))
             (mkForm "auth-form" [("username", " ")]) " " chatting);
      [reflexivity | reflexivity | discriminate].
  - apply (proj2 (proj2 (proj2 (proj2 C6_empty_submissions_rejected)))
             (mkForm "channel-form" [("channel", " ")]) " " chatting);
      [reflexivity | reflexivity | discriminate].
Defined.

(** C6 as first stated fails: a username of one space is blank, yet
    handleAuthFormSubmit assigns it and moves on to 'channel-choice'. *)
Lemma C6_counterexample :
  ¬ (∀ (form : Form) (u : string) (w : World),
       FormData_get "username" (entries form) = Some u → blank u = true →
       _state (handleAuthFormSubmit form w).2 = _state w ∧
       _username (handleAuthFormSubmit form w).2 = _username w).
Proof.
  intros Hclaim.
  destruct (Hclaim (mkForm "auth-form" [("username", " ")]) " "
              (connectedCallback (new_ChatApp ∅)).2) as [Hstate _];
    [reflexivity..|].
  vm_compute in Hstate. discriminate.
Qed.

(** C1 at its failing input: the session [connecting] is in the chat state
    and its socket 0 has not opened yet when the user picks Change Channel
    and then submits channel d.  The first transition clears the render
    target and re-renders, but closeConnection finds the socket not OPEN
    and neither closes nor releases it; the second transition creates
    socket 1 while socket 0 is still connecting, with no close in between.
    When socket 0 then opens and delivers a message, its listeners run
    against the new state: the message is logged, stored under d and
    rendered in the new render target. *)
Theorem C1_connecting_socket_not_torn_down :
  let w1 := (handleClick (Some "change-channel") connecting).2 in
  let w2 := (handleSubmit (mkForm "channel-form" [("channel", "d")]) w1).2 in
  (_state connecting = Some "chat" ∧ socket connecting = Some 0 ∧
   readyState <$> sockets connecting = [CONNECTING]) ∧
  (_state w1 = Some "channel-choice" ∧ messageListElement w1 = None ∧
   socket w1 = Some 0 ∧ readyState <$> sockets w1 = [CONNECTING] ∧
   effects w1 = (effects connecting ++ [ReplaceChildren ChannelChoiceMenu])%list) ∧
  (_state w2 = Some "chat" ∧ socket w2 = Some 1 ∧
   readyState <$> sockets w2 = [CONNECTING; CONNECTING] ∧
   effects w2 = (effects w1 ++ [PreventDefault; ReplaceChildren Chat;
                                NewWebSocket 1])%list) ∧
  ∃ w4, steps [SocketEv 0 on_open;
               SocketEv 0 (on_message (JSON_stringify_message m1))] w2 = Some w4 ∧
        channel w4 = "d" ∧ socket w4 = Some 1 ∧ messages w4 = [m1] ∧
        localStorage w4 !! "d" = Some (JSON_stringify [m1]) ∧
        messageListElement w4 = Some [UserMessage "al:" (Some "hello")].
Proof.
  split; [by vm_compute|]. split; [by vm_compute|]. split; [by vm_compute|].
  eexists. split; [vm_compute; reflexivity|]. by vm_compute.
Qed.

End ChatSpec.

(* ===================================================================== *)
(** ** Further properties of the drag coordinator                         *)
(* ===================================================================== *)

Module DragMore.
Import DesktopWindow DesktopWindowMore.
Local Open Scope Z_scope.

Lemma same_drag_refl (w : Instance) : same_drag w w.
Proof. by repeat split. Qed.

Lemma move_frame (ev : MouseMove) (d : Desktop) :
  innerWidth (handleMouseMoveForDrag ev d) = innerWidth d ∧
  innerHeight (handleMouseMoveForDrag ev d) = innerHeight d ∧
  currentlyDraggedInstance (handleMouseMoveForDrag ev d)
    = currentlyDraggedInstance d ∧
  length (instances (handleMouseMoveForDrag ev d)) = length (instances d) ∧
  ∀ (j : nat) (w : Instance),
    instances d !! j = Some w →
    ∃ w', instances (handleMouseMoveForDrag ev d) !! j = Some w' ∧
          isDragging w' = isDragging w ∧ same_drag w w' ∧
          (currentlyDraggedInstance d ≠ Some j → w' = w).
Proof.
  assert (handleMouseMoveForDrag ev d = d ∨
          ∃ i wi, currentlyDraggedInstance d = Some i ∧ instances d !! i = Some wi ∧
                  handleMouseMoveForDrag ev d =
                    set_instances
                      (<[i := set_position (newX ev wi) (newY ev wi) wi]> (instances d)) d)
    as [-> | (i & wi & Hcur & Hwi & ->)].
  { unfold handleMouseMoveForDrag.
    destruct (currentlyDraggedInstance d) as [i|]; [|by left].
    destruct (instances d !! i) as [wi|] eqn:Hwi; [|by left].
    destruct (isDragging wi); [|by left]. right. by exists i, wi. }
  - do 4 (split; [done|]). intros j w Hj. exists w.
    split; [done|]. split; [done|]. split; [apply same_drag_refl | done].
  - simpl. do 3 (split; [done|]). split; [by rewrite length_insert|].
    intros j w Hj. destruct (decide (i = j)) as [<-|Hne].
    + exists (set_position (newX ev wi) (newY ev wi) wi).
      rewrite list_lookup_insert_eq by (by eapply lookup_lt_Some).
      assert (w = wi) as -> by congruence.
      split; [done|]. split; [done|]. split; [by repeat split | congruence].
    + exists w. rewrite list_lookup_insert_ne by done.
      split; [done|]. split; [done|]. split; [apply same_drag_refl | done].
Qed.

(** X1.  A pointer move changes nothing but the position of the window
    being dragged: the viewport, the registration and the number of windows
    stay, every window keeps its flag, bounds and grab offset, and a window
    other than the registered one stays as it is. *)
Theorem X1_move_changes_only_position (ev : MouseMove) (d : Desktop) :
  innerWidth (handleMouseMoveForDrag ev d) = innerWidth d ∧
  innerHeight (handleMouseMoveForDrag ev d) = innerHeight d ∧
  currentlyDraggedInstance (handleMouseMoveForDrag ev d)
    = currentlyDraggedInstance d ∧
  length (instances (handleMouseMoveForDrag ev d)) = length (instances d) ∧
  ∀ (j : nat) (w : Instance),
    instances d !! j = Some w →
    ∃ w', instances (handleMouseMoveForDrag ev d) !! j = Some w' ∧
          isDragging w' = isDragging w ∧ same_drag w w' ∧
          (currentlyDraggedInstance d ≠ Some j → w' = w).
Proof. apply move_frame. Qed.

Lemma X1_move_changes_only_position_witness :
  let d := handleTitleBarMouseDown 0%nat example_mousedown example_desktop in
  ∃ w', instances (handleMouseMoveForDrag (mkMouseMove 10 10) d) !! 1%nat = Some w' ∧
        isDragging w' = isDragging (new_window 800 600) ∧
        same_drag (new_window 800 600) w' ∧
        (currentlyDraggedInstance d ≠ Some 1%nat → w' = new_window 800 600).
Proof.
  apply (proj2 (proj2 (proj2 (proj2
           (X1_move_changes_only_position (mkMouseMove 10 10)
              (handleTitleBarMouseDown 0%nat example_mousedown example_desktop)))))
           1%nat (new_window 800 600)).
  reflexivity.
Defined.

Lemma stopDrag_current (d : Desktop) : currentlyDraggedInstance (stopDrag d) = None.
Proof. unfold stopDrag. by destruct (currentlyDraggedInstance d) eqn:Hcur. Qed.

Lemma moves_without_drag (evs : list MouseMove) (d : Desktop) :
  currentlyDraggedInstance d = None → run (WindowMouseMove <$> evs) d = d.
Proof.
  intros Hcur. induction evs as [|ev evs IH]; [done|].
  simpl. assert (handleMouseMoveForDrag ev d = d) as ->; [|apply IH].
  unfold handleMouseMoveForDrag. by rewrite Hcur.
Qed.

(** X2.  After stopDrag (the mouseup and mouseout listener) nothing is
    being dragged: the coordinator points nowhere, the window it pointed at
    has its flag reset, every window is where it was, and any pointer moves
    that follow change nothing. *)
Theorem X2_stopDrag_ends_drag (d : Desktop) :
  currentlyDraggedInstance (stopDrag d) = None ∧
  (∀ evs : list MouseMove, run (WindowMouseMove <$> evs) (stopDrag d) = stopDrag d) ∧
  (∀ j : nat, position (stopDrag d) j = position d j) ∧
  (∀ (i : nat) (w : Instance),
     currentlyDraggedInstance d = Some i → instances d !! i = Some w →
     instances (stopDrag d) !! i = Some (set_isDragging false w)).
Proof.
  split; [apply stopDrag_current|].
  split; [intros evs; apply moves_without_drag, stopDrag_current|].
  unfold stopDrag, position.
  destruct (currentlyDraggedInstance d) as [i|] eqn:Hcur; simpl; [|done].
  split.
  - intros j. rewrite list_lookup_alter.
    destruct (decide (i = j)) as [<-|]; [|done].
    by destruct (instances d !! i).
  - intros i' w [= <-] Hw. by rewrite list_lookup_alter_eq, Hw.
Qed.

Lemma X2_stopDrag_ends_drag_witness :
  let d := handleMouseMoveForDrag (mkMouseMove 100 100)
             (handleTitleBarMouseDown 0%nat example_mousedown example_desktop) in
  instances (stopDrag d) !! 0%nat
    = Some (set_isDragging false (mkInstance true 800 540 5 5 (Some 95) (Some 95))).
Proof.
  apply (proj2 (proj2 (proj2 (X2_stopDrag_ends_drag
           (handleMouseMoveForDrag (mkMouseMove 100 100)
              (handleTitleBarMouseDown 0%nat example_mousedown example_desktop)))))
           0%nat (mkInstance true 800 540 5 5 (Some 95) (Some 95)));
    reflexivity.
Defined.

(** X3.  While the pointer keeps the window inside the bounds the window
    follows it exactly, at pointer minus grab offset; to the left there is
    no bound, the window follows to any negative x. *)
Theorem X3_window_follows_pointer (d : Desktop) (i : nat) (w : Instance)
    (ev : MouseMove) :
  drag_active d i w →
  clientX ev - offsetX w ≤ maxX w - 1 →
  0 ≤ clientY ev - offsetY w ≤ maxY w →
  position (handleMouseMoveForDrag ev d) i
    = Some (clientX ev - offsetX w, clientY ev - offsetY w).
Proof.
  intros Hact Hx Hy. rewrite (DragSpec.move_position d i w ev Hact).
  unfold newX, newY. do 2 f_equal; lia.
Qed.

Lemma X3_window_follows_pointer_witness :
  position (handleMouseMoveForDrag (mkMouseMove (-500) 100)
              (handleTitleBarMouseDown 0%nat example_mousedown example_desktop)) 0%nat
    = Some (-500 - 5, 100 - 5).
Proof.
  apply (X3_window_follows_pointer
           (handleTitleBarMouseDown 0%nat example_mousedown example_desktop) 0%nat
           (mkInstance true 800 540 5 5 None None) (mkMouseMove (-500) 100)).
  - repeat split; reflexivity.
  - simpl. lia.
  - simpl. lia.
Defined.

(** X4.  A mousedown on the title bar, off its buttons, fixes the bounds
    of the drag from the viewport of that moment and the grab offset from
    the event; a resize of the viewport during the drag does not change
    the clamping of the moves that follow. *)
Theorem X4_bounds_fixed_at_mousedown (d : Desktop) (i : nat) (w : Instance)
    (ev : MouseDown) (width height : Z) (mv : MouseMove) :
  instances d !! i = Some w → tagName ev ≠ "BUTTON" →
  position (handleMouseMoveForDrag mv
              (set_viewport width height (handleTitleBarMouseDown i ev d))) i
    = Some (Z.min (clientX mv - ev_offsetX ev) (innerWidth d - 1),
            Z.min (Z.max 0 (clientY mv - ev_offsetY ev)) (innerHeight d - 60)).
Proof.
  intros Hw Htag.
  pose proof (DragSpec.mousedown_starts_drag d i w ev Hw Htag) as (Hcur & Hi & Hflag).
  rewrite (DragSpec.move_position _ i (begin_drag ev d w) mv); [done|].
  by repeat split.
Qed.

Lemma X4_bounds_fixed_at_mousedown_witness :
  position (handleMouseMoveForDrag (mkMouseMove 2000 2000)
              (set_viewport 1920 1080
                 (handleTitleBarMouseDown 0%nat example_mousedown example_desktop))) 0%nat
    = Some (Z.min (2000 - 5) (800 - 1), Z.min (Z.max 0 (2000 - 5)) (600 - 60)).
Proof.
  apply (X4_bounds_fixed_at_mousedown example_desktop 0%nat (new_window 800 600)
           example_mousedown 1920 1080 (mkMouseMove 2000 2000));
    [reflexivity | discriminate].
Defined.

Lemma dispatch_registered_has_flag (d : Desktop) (e : PointerEvent) :
  registered_has_flag d → registered_has_flag (dispatch d e).
Proof.
  intros Hinv. destruct e as [this ev|ev| |]; simpl.
  - unfold handleTitleBarMouseDown. case_bool_decide; [|done].
    intros i w [= <-]. simpl. rewrite list_lookup_alter_eq.
    destruct (instances d !! this); [|done]. by intros [= <-].
  - intros i w Hcur Hw.
    destruct (move_frame ev d) as (_ & _ & Hc & _ & _).
    rewrite Hc in Hcur. unfold handleMouseMoveForDrag in Hw. rewrite Hcur in Hw.
    destruct (instances d !! i) as [wi|] eqn:Hwi; [|by rewrite Hwi in Hw].
    pose proof (Hinv i wi Hcur Hwi) as Hflag. rewrite Hflag in Hw. simpl in Hw.
    rewrite list_lookup_insert_eq in Hw by (by eapply lookup_lt_Some).
    by injection Hw as <-.
  - intros i w Hcur. by rewrite stopDrag_current in Hcur.
  - intros i w Hcur. by rewrite stopDrag_current in Hcur.
Qed.

(** X5.  Whatever the pointer does, the window the coordinator points at
    has isDragging set: the second test of handleMouseMoveForDrag never
    decides anything. *)
Theorem X5_registered_window_is_flagged (es : list PointerEvent) :
  ∀ d : Desktop, registered_has_flag d → registered_has_flag (run es d).
Proof.
  induction es as [|e es IH]; intros d Hinv; [done|].
  apply IH. by apply dispatch_registered_has_flag.
Qed.

Lemma X5_registered_window_is_flagged_witness :
  registered_has_flag
    (run [TitleBarMouseDown 0%nat example_mousedown;
          WindowMouseMove (mkMouseMove 30 30);
          TitleBarMouseDown 1%nat example_mousedown] example_desktop).
Proof.
  apply (X5_registered_window_is_flagged
           [TitleBarMouseDown 0%nat example_mousedown;
            WindowMouseMove (mkMouseMove 30 30);
            TitleBarMouseDown 1%nat example_mousedown] example_desktop).
  intros i w Hcur. discriminate Hcur.
Defined.

Lemma dispatch_flags_clean (d : Desktop) (e : PointerEvent) :
  flags_clean d →
  (∀ this ev, e = TitleBarMouseDown this ev →
     currentlyDraggedInstance d = None ∨ currentlyDraggedInstance d = Some this) →
  flags_clean (dispatch d e).
Proof.
  intros Hclean Hsingle. destruct e as [this ev|ev| |]; simpl.
  - unfold handleTitleBarMouseDown. case_bool_decide; [|done].
    intros j w. simpl. intros Hj Hflag.
    destruct (decide (this = j)) as [->|Hne]; [done|].
    rewrite list_lookup_alter_ne in Hj by done.
    pose proof (Hclean j w Hj Hflag) as Hcur.
    destruct (Hsingle this ev eq_refl) as [Hnone|Hthis]; congruence.
  - intros j w Hj Hflag.
    destruct (move_frame ev d) as (_ & _ & Hc & Hlen & _).
    rewrite Hc.
    assert (is_Some (instances d !! j)) as [w0 Hw0].
    { apply lookup_lt_is_Some. rewrite <- Hlen. by eapply lookup_lt_Some. }
    destruct (move_frame ev d) as (_ & _ & _ & _ & Hfr).
    destruct (Hfr j w0 Hw0) as (w' & Hw' & Hsame & _).
    apply (Hclean j w0 Hw0). congruence.
  - unfold stopDrag. destruct (currentlyDraggedInstance d) as [i|] eqn:Hcur; [|done].
    intros j w. simpl. rewrite list_lookup_alter.
    destruct (decide (i = j)) as [<-|Hne].
    + destruct (instances d !! i); simpl; [|done]. by intros [= <-] Hflag.
    + intros Hj Hflag. pose proof (Hclean j w Hj Hflag). congruence.
  - unfold stopDrag. destruct (currentlyDraggedInstance d) as [i|] eqn:Hcur; [|done].
    intros j w. simpl. rewrite list_lookup_alter.
    destruct (decide (i = j)) as [<-|Hne].
    + destruct (instances d !! i); simpl; [|done]. by intros [= <-] Hflag.
    + intros Hj Hflag. pose proof (Hclean j w Hj Hflag). congruence.
Qed.

(** X6.  As long as no title-bar mousedown arrives while another window
    is being dragged, isDragging is set on the registered window only:
    after every such pointer stream a window with the flag set is the one
    the coordinator points at. *)
Theorem X6_flags_clean_under_single_pointer (es : list PointerEvent) :
  ∀ d : Desktop,
    flags_clean d → single_pointer d es → flags_clean (run es d).
Proof.
  induction es as [|e es IH] using rev_ind; intros d Hclean Hsingle; [done|].
  unfold run. rewrite foldl_app. simpl. fold (run es d).
  apply dispatch_flags_clean.
  - apply IH; [done|]. intros pre this ev post ->.
    apply (Hsingle pre this ev (post ++ [e])%list). by rewrite <- app_assoc.
  - intros this ev ->. apply (Hsingle es this ev []). done.
Qed.

Lemma X6_flags_clean_under_single_pointer_witness :
  flags_clean
    (run [TitleBarMouseDown 0%nat example_mousedown;
          WindowMouseMove (mkMouseMove 30 30); WindowMouseUp] example_desktop).
Proof.
  apply (X6_flags_clean_under_single_pointer
           [TitleBarMouseDown 0%nat example_mousedown;
            WindowMouseMove (mkMouseMove 30 30); WindowMouseUp] example_desktop).
  - intros [|[|[|j]]] w Hj Hflag; simplify_eq/=.
  - intros [|e0 [|e1 [|e2 [|e3 pre]]]] this ev post Heq; simplify_eq/=.
    by left.
Defined.

End DragMore.

(* ===================================================================== *)
(** ** Further properties of the window element and the desktop icon      *)
(* ===================================================================== *)

Module WindowMore.
Import DesktopWindow DesktopWindowMore WindowShell.

Lemma mirrors_closed : mirrors closed.
Proof. reflexivity. Qed.

Lemma closeAllDropdowns_mirrors (ex : option nat) (l : list Dropdown) :
  Forall mirrors l → Forall mirrors (closeAllDropdowns ex l).
Proof.
  rewrite !Forall_lookup. intros Hall j c.
  rewrite DropdownSpec.closeAllDropdowns_lookup.
  destruct (l !! j) as [c0|] eqn:Hc0; simpl; [|done]. intros [= <-].
  case_bool_decide; [apply mirrors_closed | by eapply Hall].
Qed.

Lemma click_mirrors (l : list Dropdown) (target : Target) :
  Forall mirrors l → Forall mirrors (click l target).
Proof.
  intros Hall. unfold click.
  destruct (handleControlPanelClick target l) as [l'|] eqn:Hclick; [|done].
  simpl. unfold handleControlPanelClick in Hclick.
  destruct (contains "window__dropdown-activator" target).
  { destruct (dropdown target) as [i|]; [|done]. simpl in Hclick.
    unfold toggleDropdown in Hclick. destruct (l !! i) as [c|]; [|done].
    injection Hclick as <-. apply Forall_insert.
    - by apply closeAllDropdowns_mirrors.
    - unfold mirrors. simpl. by destruct (bool_decide (display c = "block")). }
  destruct (contains "window__dropdown-choice" target).
  { destruct (dropdown target) as [i|]; [|done]. simpl in Hclick.
    destruct (l !! i); [|done]. simpl in Hclick. injection Hclick as <-.
    unfold closeDropdown. apply Forall_alter; [done|].
    intros; apply mirrors_closed. }
  destruct (contains "window__dropdown-content" target); simpl in Hclick;
    injection Hclick as <-; [done|].
  by apply closeAllDropdowns_mirrors.
Qed.

(** X7.  Under any clicks the class `active` of every dropdown mirrors the
    display of its content: a dropdown is marked active exactly when its
    content is shown. *)
Theorem X7_active_mirrors_display (targets : list Target) :
  ∀ l : list Dropdown,
    Forall mirrors l → Forall mirrors (foldl click l targets).
Proof.
  induction targets as [|t ts IH]; intros l Hall; [done|].
  simpl. apply IH. by apply click_mirrors.
Qed.

Lemma X7_active_mirrors_display_witness :
  Forall mirrors
    (foldl click example_menus
       [mkTarget ["window__dropdown-activator"] (Some 0);
        mkTarget ["window__dropdown-choice"] (Some 0)]).
Proof.
  apply (X7_active_mirrors_display
           [mkTarget ["window__dropdown-activator"] (Some 0);
            mkTarget ["window__dropdown-choice"] (Some 0)] example_menus).
  repeat constructor.
Defined.

Lemma windowFocusChange_lookup (f : option string) (ws : list Shell) (j : nat) :
  windowFocusChange f ws !! j = handleFocusChange f <$> ws !! j.
Proof. unfold windowFocusChange. apply list_lookup_fmap. Qed.

(** X8.  After a windowFocusChange event a window is focused exactly when
    its data-window-id is the id of the event; when the ids of the windows
    differ pairwise, at most one window is focused; and only the last event
    counts. *)
Theorem X8_focus_follows_broadcast (f : option string) (ws : list Shell) :
  (∀ j w, windowFocusChange f ws !! j = Some w →
          (isFocused w = true ↔ windowId w = f)) ∧
  (NoDup (windowId <$> ws) →
   ∀ j k wj wk,
     windowFocusChange f ws !! j = Some wj → windowFocusChange f ws !! k = Some wk →
     isFocused wj = true → isFocused wk = true → j = k) ∧
  (∀ g, windowFocusChange f (windowFocusChange g ws) = windowFocusChange f ws).
Proof.
  assert (∀ j w, windowFocusChange f ws !! j = Some w →
            (isFocused w = true ↔ windowId w = f) ∧ windowId <$> ws !! j = Some (windowId w))
    as Hone.
  { intros j w. rewrite windowFocusChange_lookup.
    destruct (ws !! j) as [w0|]; simpl; [|done]. intros [= <-]. simpl.
    split; [apply bool_decide_eq_true | done]. }
  split; [intros j w Hj; exact (proj1 (Hone j w Hj))|]. split.
  - intros Hnodup j k wj wk Hj Hk Hfj Hfk.
    destruct (Hone j wj Hj) as [Hwj Hidj]. destruct (Hone k wk Hk) as [Hwk Hidk].
    apply Hwj in Hfj. apply Hwk in Hfk.
    eapply (NoDup_lookup _ j k (windowId wj) Hnodup).
    + by rewrite list_lookup_fmap.
    + rewrite list_lookup_fmap. congruence.
  - intros g. unfold windowFocusChange. rewrite <- list_fmap_compose.
    by apply list_fmap_ext.
Qed.

Lemma X8_focus_follows_broadcast_witness :
  let ws := [mkShell (Some "1") (Some "1") true false None;
             mkShell (Some "2") (Some "2") false false None] in
  NoDup (windowId <$> ws) ∧
  ∃ w0 w1,
    windowFocusChange (Some "2") ws !! 0%nat = Some w0 ∧
    windowFocusChange (Some "2") ws !! 1%nat = Some w1 ∧
    isFocused w1 = true ∧
    (isFocused w0 = true → 0%nat = 1%nat).
Proof.
  assert (NoDup (windowId <$> [mkShell (Some "1") (Some "1") true false None;
                               mkShell (Some "2") (Some "2") false false None]))
    as Hnodup.
  { simpl. apply NoDup_cons. split; [|apply NoDup_singleton].
    intros Hin. apply list_elem_of_singleton in Hin. discriminate Hin. }
  split; [exact Hnodup|].
  eexists _, _. split; [reflexivity|]. split; [reflexivity|]. split; [reflexivity|].
  intros Hf.
  exact (proj1 (proj2 (X8_focus_follows_broadcast (Some "2")
           [mkShell (Some "1") (Some "1") true false None;
            mkShell (Some "2") (Some "2") false false None]))
         Hnodup 0%nat 1%nat _ _ eq_refl eq_refl Hf eq_refl).
Defined.

Lemma titleBarClicks_cons (label : option string) (labels : list (option string))
    (w : Shell) :
  titleBarClicks (label :: labels) w =
    ((titleBarClicks labels (handleTitleBarClick label w).1).1,
     ((handleTitleBarClick label w).2
        ++ (titleBarClicks labels (handleTitleBarClick label w).1).2)%list).
Proof.
  simpl. destruct (handleTitleBarClick label w) as [w1 evs1]. simpl.
  by destruct (titleBarClicks labels w1).
Qed.

Lemma handleTitleBarClick_spec (label : option string) (w : Shell) :
  handleTitleBarClick label w =
    (mkShell (windowId w) (dataId w) (isFocused w)
       (xorb (maximized w) (bool_decide (label = Some "Maximize")))
       (if bool_decide (label = Some "Minimize") then Some "none"
        else style_display w),
     if bool_decide (label = Some "Close") then [mkCloseWindow (dataId w)] else []).
Proof.
  unfold handleTitleBarClick, handleCloseClick, handleMaximizeClick,
    handleMinimizeClick.
  destruct w as [wid did foc mx disp].
  repeat case_bool_decide; simplify_eq; simpl; try done; by destruct mx.
Qed.

Lemma bool_decide_elem_of_cons (x a : option string) (l : list (option string)) :
  bool_decide (x ∈ a :: l) = bool_decide (a = x) || bool_decide (x ∈ l).
Proof.
  repeat case_bool_decide; simpl; try done; exfalso;
    repeat match goal with
           | Hin : _ ∈ _ :: _ |- _ => apply elem_of_cons in Hin
           | Hn : ¬ (_ ∈ _ :: _) |- _ => rewrite elem_of_cons in Hn
           end; intuition congruence.
Qed.

(** X9.  Under any sequence of title-bar clicks the window dispatches one
    closeWindow event per click on Close, each carrying its own id, and
    does not change by it; once hidden by Minimize it stays hidden; its
    class maximized flips with every Maximize, so that an even number of
    them restores it; its identity and focus are not touched. *)
Theorem X9_title_bar_clicks (labels : list (option string)) :
  ∀ w : Shell,
    (titleBarClicks labels w).2 =
      ((λ _, mkCloseWindow (dataId w)) <$> filter (λ l, l = Some "Close") labels) ∧
    style_display (titleBarClicks labels w).1 =
      (if bool_decide (Some "Minimize" ∈ labels) then Some "none"
       else style_display w) ∧
    maximized (titleBarClicks labels w).1 =
      xorb (maximized w)
           (Nat.odd (length (filter (λ l, l = Some "Maximize") labels))) ∧
    windowId (titleBarClicks labels w).1 = windowId w ∧
    dataId (titleBarClicks labels w).1 = dataId w ∧
    isFocused (titleBarClicks labels w).1 = isFocused w.
Proof.
  induction labels as [|label labels IH]; intros w.
  - simpl. by destruct (maximized w).
  - rewrite titleBarClicks_cons, handleTitleBarClick_spec. simpl.
    match goal with |- context [titleBarClicks labels ?w1] =>
      destruct (IH w1) as (He & Hd & Hm & Hw & Hi & Hf) end.
    rewrite He, Hd, Hm, Hw, Hi, Hf. simpl.
    rewrite !filter_cons, bool_decide_elem_of_cons.
    clear IH He Hd Hm Hw Hi Hf. repeat split.
    + destruct (decide (label = Some "Close")) as [Hl|Hl];
        [rewrite (bool_decide_eq_true_2 _ Hl) | rewrite (bool_decide_eq_false_2 _ Hl)];
        done.
    + by destruct (bool_decide (label = Some "Minimize")),
                  (bool_decide (Some "Minimize" ∈ labels)).
    + destruct (decide (label = Some "Maximize")) as [Hl|Hl];
        [rewrite (bool_decide_eq_true_2 _ Hl) | rewrite (bool_decide_eq_false_2 _ Hl)];
        simpl.
      * rewrite Nat.odd_succ, <- Nat.negb_odd.
        by destruct (maximized w), (Nat.odd _).
      * by rewrite xorb_false_r.
Qed.

Lemma X9_title_bar_clicks_witness :
  (titleBarClicks [Some "Maximize"; Some "Close"; None; Some "Minimize";
                   Some "Maximize"; Some "Close"]
     (connectedCallback (mkShell (Some "7") None true false None))).2
    = [mkCloseWindow (Some "7"); mkCloseWindow (Some "7")].
Proof.
  exact (proj1 (X9_title_bar_clicks
           [Some "Maximize"; Some "Close"; None; Some "Minimize";
            Some "Maximize"; Some "Close"]
           (connectedCallback (mkShell (Some "7") None true false None)))).
Defined.

(** X10.  Titles are never empty.  getWindowTitle returns the title
    attribute, or 'Untitled Window' when it is missing or empty; an icon
    that has been connected dispatches on a double click one
    iconDoubleClick event whose windowTitle is the name attribute, or
    'New Folder' when that is missing or empty, and is not changed by
    it. *)
Theorem X10_titles_never_empty :
  (∀ title : option string,
     ∃ t, getWindowTitle title = Some t ∧ t ≠ "" ∧
          (ChatApp.truthy title = true → title = Some t) ∧
          (ChatApp.truthy title = false → t = "Untitled Window")) ∧
  (∀ i : DesktopIcon.Icon,
     ∃ t, (DesktopIcon.handleDoubleClick (DesktopIcon.connectedCallback i)).2
            = [DesktopIcon.mkIconDoubleClick (Some t)] ∧
          (DesktopIcon.handleDoubleClick (DesktopIcon.connectedCallback i)).1
            = DesktopIcon.connectedCallback i ∧
          t ≠ "" ∧
          (ChatApp.truthy (DesktopIcon.attr_name i) = true →
           DesktopIcon.attr_name i = Some t) ∧
          (ChatApp.truthy (DesktopIcon.attr_name i) = false → t = "New Folder")).
Proof.
  split.
  - intros [t|]; unfold getWindowTitle, ChatApp.js_or, ChatApp.truthy.
    + case_bool_decide as Ht; simpl.
      * exists "Untitled Window". by repeat split.
      * exists t. by repeat split.
    + exists "Untitled Window". by repeat split.
  - intros [[t|] nm]; simpl; unfold ChatApp.js_or, ChatApp.truthy.
    + case_bool_decide as Ht; simpl.
      * exists "New Folder". by repeat split.
      * exists t. by repeat split.
    + exists "New Folder". by repeat split.
Qed.

Lemma X10_titles_never_empty_witness :
  getWindowTitle (Some "Chat") = Some "Chat" ∧ getWindowTitle (Some "") = Some "Untitled Window".
Proof.
  split.
  - destruct (proj1 X10_titles_never_empty (Some "Chat")) as (t & Ht & _ & Hsame & _).
    rewrite Ht. symmetry. by apply Hsame.
  - destruct (proj1 X10_titles_never_empty (Some "")) as (t & Ht & _ & _ & Hdef).
    rewrite Ht. f_equal. by apply Hdef.
Defined.

End WindowMore.

(* ===================================================================== *)
(** ** Further properties of the chat session controller                  *)
(* ===================================================================== *)

Module ChatMore.
Import ChatApp ChatAppMore.
Import ChatSpec.

Lemma username_new_ChatApp (storage : gmap string string) :
  username (new_ChatApp storage) = js_or (storage !! "username") None ∧
  truthy (username (new_ChatApp storage)) = truthy (storage !! "username").
Proof.
  unfold username, new_ChatApp, js_or. simpl.
  destruct (truthy (storage !! "username")) eqn:Ht; simpl; rewrite ?Ht; simpl;
    by rewrite ?Ht.
Qed.

Lemma connectedCallback_new (storage : gmap string string) :
  (connectedCallback (new_ChatApp storage)).1 = Ok tt ∧
  username (connectedCallback (new_ChatApp storage)).2
    = js_or (storage !! "username") None ∧
  (if truthy (storage !! "username")
   then _state (connectedCallback (new_ChatApp storage)).2 = Some "channel-choice" ∧
        body (connectedCallback (new_ChatApp storage)).2 = Some ChannelChoiceMenu
   else _state (connectedCallback (new_ChatApp storage)).2 = Some "username-choice" ∧
        body (connectedCallback (new_ChatApp storage)).2 = Some UsernameChoiceMenu) ∧
  changeChannelButton (connectedCallback (new_ChatApp storage)).2 = true ∧
  messageListElement (connectedCallback (new_ChatApp storage)).2 = None ∧
  socket (connectedCallback (new_ChatApp storage)).2 = None ∧
  sockets (connectedCallback (new_ChatApp storage)).2 = [] ∧
  localStorage (connectedCallback (new_ChatApp storage)).2 = storage.
Proof.
  destruct (username_new_ChatApp storage) as [Hname Htruthy].
  unfold connectedCallback, set_state. simpl. unfold_M. unfold closeConnection.
  simpl. unfold renderBody_with. simpl. unfold_M.
  change (username (with_changeChannelButton true
            (with_messageListElement None
               (with_state (Some "username-choice") (new_ChatApp storage)))))
    with (username (new_ChatApp storage)).
  rewrite Htruthy. destruct (truthy (storage !! "username")) eqn:Ht; simpl;
    (split; [done|]); (split; [exact Hname|]); done.
Qed.

(** X11.  A chat element that is connected to the page shows the channel
    form at once when localStorage holds a non-empty username, and the
    username form otherwise; in both cases Change Channel is disabled, no
    socket exists and localStorage is as it was. *)
Theorem X11_connected_skips_username_form (storage : gmap string string) :
  (connectedCallback (new_ChatApp storage)).1 = Ok tt ∧
  username (connectedCallback (new_ChatApp storage)).2
    = js_or (storage !! "username") None ∧
  (if truthy (storage !! "username")
   then _state (connectedCallback (new_ChatApp storage)).2 = Some "channel-choice" ∧
        body (connectedCallback (new_ChatApp storage)).2 = Some ChannelChoiceMenu
   else _state (connectedCallback (new_ChatApp storage)).2 = Some "username-choice" ∧
        body (connectedCallback (new_ChatApp storage)).2 = Some UsernameChoiceMenu) ∧
  changeChannelButton (connectedCallback (new_ChatApp storage)).2 = true ∧
  messageListElement (connectedCallback (new_ChatApp storage)).2 = None ∧
  socket (connectedCallback (new_ChatApp storage)).2 = None ∧
  sockets (connectedCallback (new_ChatApp storage)).2 = [] ∧
  localStorage (connectedCallback (new_ChatApp storage)).2 = storage.
Proof. apply connectedCallback_new. Qed.

Lemma connectedCallback_fresh (storage : gmap string string) :
  truthy (storage !! "username") = false →
  connectedCallback (new_ChatApp storage) =
    (Ok tt,
     emit (ReplaceChildren UsernameChoiceMenu)
       (with_body (Some UsernameChoiceMenu)
          (with_changeChannelButton true
             (with_messageListElement None
                (with_state (Some "username-choice") (new_ChatApp storage)))))).
Proof.
  intros Ht. destruct (username_new_ChatApp storage) as [_ Htruthy].
  rewrite Ht in Htruthy.
  unfold connectedCallback, set_state. simpl. unfold_M. unfold closeConnection.
  simpl. unfold renderBody_with. simpl. unfold_M.
  change (username (with_changeChannelButton true
            (with_messageListElement None
               (with_state (Some "username-choice") (new_ChatApp storage)))))
    with (username (new_ChatApp storage)).
  by rewrite Htruthy.
Qed.

Lemma username_same_session (w w' : World) :
  same_session w w' → username w' = username w.
Proof. intros (Hu & _ & _ & Hl). unfold username. by rewrite Hu, Hl. Qed.

Lemma closeConnection_disconnects (event : bool) (w : World) (s : nat) :
  ¬ connected (closeConnection event w).2 s.
Proof.
  unfold closeConnection, connected.
  destruct (socket w) as [s0|] eqn:Hs; [|simpl; rewrite Hs; by intros [[=] _]].
  destruct (is_OPEN w s0) eqn:Hopen.
  - destruct event; simpl; by intros [[=] _].
  - simpl. rewrite Hs. intros [[= <-] Ho]. apply is_OPEN_spec in Ho. congruence.
Qed.

Lemma set_state_username_choice_asks (w : World) :
  truthy (username w) = false →
  set_state "username-choice" w =
    (Ok tt,
     emit (ReplaceChildren UsernameChoiceMenu)
       (with_body (Some UsernameChoiceMenu)
          (with_changeChannelButton true
             (with_messageListElement None
                (closeConnection false (with_state (Some "username-choice") w)).2)))).
Proof.
  intros Ht. unfold set_state. simpl. unfold_M.
  pose proof (closeConnection_Ok false (with_state (Some "username-choice") w)) as Hok.
  pose proof (closeConnection_frame false (with_state (Some "username-choice") w))
    as [Hfr _].
  destruct (closeConnection false (with_state (Some "username-choice") w)) as [r w1].
  simpl in Hok, Hfr. subst r. unfold renderBody_with. simpl. unfold_M.
  assert (username (with_changeChannelButton true (with_messageListElement None w1))
          = username w) as ->; [|by rewrite Ht].
  transitivity (username w1); [reflexivity|].
  by rewrite (username_same_session _ _ Hfr).
Qed.

Lemma same_screen_refl (w : World) : same_screen w w.
Proof. by repeat split. Qed.

Lemma same_screen_trans (w1 w2 w3 : World) :
  same_screen w1 w2 → same_screen w2 w3 → same_screen w1 w3.
Proof.
  intros (Hs & Hb & Hc & Hm) (Hs' & Hb' & Hc' & Hm').
  split; [congruence|]. split; [congruence|]. split; [congruence|].
  by rewrite Hm'.
Qed.

Lemma screen_matches_same_screen (w w' : World) :
  screen_matches_state w → same_screen w w' → screen_matches_state w'.
Proof.
  intros Hscreen (Hs & Hb & Hc & Hm). unfold screen_matches_state.
  rewrite Hs, Hb, Hc.
  assert (messageListElement w = None → messageListElement w' = None) as Hnone.
  { intros Hn. rewrite Hn in Hm. destruct (messageListElement w'); [|done].
    by destruct (proj1 Hm (mk_is_Some _ _ eq_refl)). }
  destruct Hscreen as [(? & ? & Hmle & ?) | [(? & ? & Hmle & ?) | (? & ? & Hmle & ?)]].
  - left. repeat split; try done. by apply Hm.
  - right; left. repeat split; try done. by apply Hnone.
  - right; right. repeat split; try done. by apply Hnone.
Qed.

Lemma closeConnection_same_screen (event : bool) (w : World) :
  same_screen w (closeConnection event w).2.
Proof.
  unfold closeConnection. destruct (socket w) as [s|]; [|apply same_screen_refl].
  destruct (is_OPEN w s); [|apply same_screen_refl].
  destruct event; by repeat split.
Qed.

Lemma set_state_screen (value : string) (w : World) :
  value = "username-choice" ∨ value = "channel-choice" ∨ value = "chat" →
  screen_matches_state (set_state value w).2.
Proof.
  intros Hvalue. unfold set_state. simpl. unfold_M.
  pose proof (closeConnection_Ok false (with_state (Some value) w)) as Hok.
  pose proof (closeConnection_frame false (with_state (Some value) w)) as [_ Hst].
  destruct (closeConnection false (with_state (Some value) w)) as [r w1].
  simpl in Hok, Hst. subst r. unfold renderBody_with, screen_matches_state.
  destruct Hvalue as [-> | [-> | ->]]; simpl; unfold_M; simpl.
  - destruct (truthy _).
    + match goal with |- context [closeConnection false ?w'] =>
        pose proof (closeConnection_Ok false w') as Hok;
        pose proof (closeConnection_frame false w') as [_ Hst'];
        destruct (closeConnection false w') as [r w2] end.
      simpl in Hok, Hst'. subst r. simpl. right; left. by repeat split.
    + simpl. right; right. by repeat split.
  - right; left. by repeat split.
  - left. by repeat split.
Qed.

Lemma handleClick_screen (action : option string) (w : World) :
  screen_matches_state w → screen_matches_state (handleClick action w).2.
Proof.
  intros Hscreen. unfold handleClick.
  case_bool_decide.
  { unfold set_username. unfold_M. cbv beta iota. apply set_state_screen. by left. }
  case_bool_decide; [|done].
  apply set_state_screen. right; by left.
Qed.

Lemma handleAuthFormSubmit_screen (form : Form) (w : World) :
  screen_matches_state w → screen_matches_state (handleAuthFormSubmit form w).2.
Proof.
  intros Hscreen. unfold handleAuthFormSubmit.
  destruct (FormData_get "username" (entries form)) as [u|]; [|done].
  destruct (truthy (Some u)); [|done].
  unfold set_username. unfold_M.
  destruct (truthy (FormData_get "remember-me" (entries form))); cbv beta iota;
    apply set_state_screen; right; by left.
Qed.

Lemma handleChannelChoiceFormSubmit_screen (form : Form) (w : World) :
  screen_matches_state w →
  screen_matches_state (handleChannelChoiceFormSubmit form w).2.
Proof.
  intros Hscreen. unfold handleChannelChoiceFormSubmit.
  destruct (FormData_get "channel" (entries form)) as [c|]; [|done].
  destruct (truthy (Some c)); [|done].
  unfold_M. cbv beta iota. apply set_state_screen. right; by right.
Qed.

Lemma handleAuthFormSubmit_auth_form (u : string) (r : bool) (w : World) :
  u ≠ "" → (∀ s, ¬ connected w s) →
  handleAuthFormSubmit (auth_form u r) w =
    (Ok tt,
     emit (ReplaceChildren ChannelChoiceMenu)
       (with_body (Some ChannelChoiceMenu)
          (with_changeChannelButton true
             (with_messageListElement None
                (with_state (Some "channel-choice")
                   (if r
                    then with_localStorage (<["username" := u]> (localStorage w))
                           (with_username (Some u) w)
                    else with_username (Some u) w)))))).
Proof.
  intros Hu Hno.
  rewrite (handleAuthFormSubmit_accepts _ u) by (reflexivity || done).
  unfold set_username. unfold_M.
  destruct r.
  - change (truthy (FormData_get "remember-me" (entries (auth_form u true))))
      with true. cbv beta iota.
    rewrite set_state_channel_choice; [done|]. intros s [Hs Ho]. by apply (Hno s).
  - change (truthy (FormData_get "remember-me" (entries (auth_form u false))))
      with false. cbv beta iota.
    rewrite set_state_channel_choice; [done|]. intros s [Hs Ho]. by apply (Hno s).
Qed.

Section WithJSON.
Context `{JSON}.

Lemma handleSubmit_auth_form (u : string) (r : bool) (w : World) :
  handleSubmit (auth_form u r) w =
    handleAuthFormSubmit (auth_form u r) (emit PreventDefault w).
Proof. reflexivity. Qed.

(** X12.  The way in: over a localStorage without a username the element
    shows the username form; a non-empty username moves it to the channel
    form without any socket; a non-empty channel moves it to the chat with
    an empty log, an empty render target and one socket, still connecting.
    localStorage gains the username when remember-me was ticked and
    nothing otherwise. *)
Theorem X12_login_flow (storage : gmap string string) (u c : string) (r : bool) :
  truthy (storage !! "username") = false → u ≠ "" → c ≠ "" →
  let w1 := (connectedCallback (new_ChatApp storage)).2 in
  let w2 := (handleSubmit (auth_form u r) w1).2 in
  let w3 := (handleSubmit (channel_form c) w2).2 in
  (_state w2 = Some "channel-choice" ∧ username w2 = Some u ∧ sockets w2 = []) ∧
  _state w3 = Some "chat" ∧ channel w3 = c ∧ username w3 = Some u ∧
  messages w3 = [] ∧ messageListElement w3 = Some [] ∧
  socket w3 = Some 0 ∧ readyState <$> sockets w3 = [CONNECTING] ∧
  localStorage w3 = (if r then <["username" := u]> storage else storage) ∧
  effects w3 = [ReplaceChildren UsernameChoiceMenu; PreventDefault;
                ReplaceChildren ChannelChoiceMenu; PreventDefault;
                ReplaceChildren Chat; NewWebSocket 0].
Proof.
  intros Ht Hu Hc. cbv zeta.
  assert (∀ ls, js_or (js_or (Some u) ls) None = Some u) as Hname.
  { intros ls. unfold js_or. assert (truthy (Some u) = true) as Htu.
    { unfold truthy. by rewrite bool_decide_eq_false_2. }
    by rewrite !Htu. }
  rewrite (connectedCallback_fresh storage Ht). cbn [snd].
  rewrite handleSubmit_auth_form.
  rewrite handleAuthFormSubmit_auth_form by (done || intros s0 [[=] _]).
  cbn [snd]. unfold channel_form. rewrite handleSubmit_channel_form.
  rewrite (handleChannelChoiceFormSubmit_accepts _ c) by (reflexivity || done).
  rewrite set_state_chat by (destruct r; intros s0 [[=] _]).
  unfold username. destruct r; norm_world; rewrite !Hname; done.
Qed.

(** X13.  A username submitted with remember-me ticked is stored under the
    key username and the next page load goes straight to the channel form
    with it; submitted without, nothing is stored. *)
Theorem X13_remembered_username_survives_reload (u : string) (r : bool)
    (w : World) :
  u ≠ "" →
  (r = true →
   localStorage (handleSubmit (auth_form u r) w).2
     = <["username" := u]> (localStorage w) ∧
   _state (connectedCallback (reload (handleSubmit (auth_form u r) w).2)).2
     = Some "channel-choice" ∧
   username (connectedCallback (reload (handleSubmit (auth_form u r) w).2)).2
     = Some u) ∧
  (r = false → localStorage (handleSubmit (auth_form u r) w).2 = localStorage w).
Proof.
  intros Hu.
  assert (truthy (Some u) = true) as Htu.
  { unfold truthy. by rewrite bool_decide_eq_false_2. }
  rewrite handleSubmit_auth_form.
  rewrite (handleAuthFormSubmit_accepts _ u) by (reflexivity || done).
  unfold set_username. unfold_M. split; intros ->.
  - change (truthy (FormData_get "remember-me" (entries (auth_form u true))))
      with true. cbv beta iota.
    match goal with |- context [set_state "channel-choice" ?w'] =>
      destruct (set_state_frame "channel-choice" w') as ((_ & _ & _ & Hl) & _) end.
    assert (localStorage
              (with_localStorage
                 (<["username" := u]>
                    (localStorage (with_username (Some u) (emit PreventDefault w))))
                 (with_username (Some u) (emit PreventDefault w)))
            = <["username" := u]> (localStorage w)) as Hins by reflexivity.
    rewrite Hins in Hl.
    split; [exact Hl|]. unfold reload. rewrite Hl.
    pose proof (connectedCallback_new (<["username" := u]> (localStorage w)))
      as (_ & Hname & Hstate & _).
    rewrite lookup_insert_eq in Hname, Hstate. rewrite Htu in Hstate.
    split; [apply Hstate|]. rewrite Hname. unfold js_or. by rewrite Htu.
  - change (truthy (FormData_get "remember-me" (entries (auth_form u false))))
      with false. cbv beta iota.
    match goal with |- context [set_state "channel-choice" ?w'] =>
      destruct (set_state_frame "channel-choice" w') as ((_ & _ & _ & Hl) & _) end.
    exact Hl.
Qed.

Lemma change_username_spec (w : World) :
  (handleClick (Some "change-username") w).1 = Ok tt ∧
  _state (handleClick (Some "change-username") w).2 = Some "username-choice" ∧
  body (handleClick (Some "change-username") w).2 = Some UsernameChoiceMenu ∧
  username (handleClick (Some "change-username") w).2 = None ∧
  localStorage (handleClick (Some "change-username") w).2
    = delete "username" (localStorage w) ∧
  messageListElement (handleClick (Some "change-username") w).2 = None ∧
  changeChannelButton (handleClick (Some "change-username") w).2 = true ∧
  (∀ s, ¬ connected (handleClick (Some "change-username") w).2 s) ∧
  (∀ s, connected w s →
     socket (handleClick (Some "change-username") w).2 = None ∧
     sockets (handleClick (Some "change-username") w).2
       = alter (set_readyState CLOSING) s (sockets w) ∧
     effects (handleClick (Some "change-username") w).2
       = (effects w ++ [SocketClose s; ReplaceChildren UsernameChoiceMenu])%list) ∧
  ((∀ s, ¬ connected w s) →
     socket (handleClick (Some "change-username") w).2 = socket w ∧
     sockets (handleClick (Some "change-username") w).2 = sockets w ∧
     effects (handleClick (Some "change-username") w).2
       = (effects w ++ [ReplaceChildren UsernameChoiceMenu])%list) ∧
  channel (handleClick (Some "change-username") w).2 = channel w ∧
  messages (handleClick (Some "change-username") w).2 = messages w ∧
  _state (connectedCallback (reload (handleClick (Some "change-username") w).2)).2
    = Some "username-choice".
Proof.
  unfold handleClick. rewrite bool_decide_eq_true_2 by done.
  unfold set_username. unfold_M. cbv beta iota.
  set (w1 := with_localStorage (delete "username" (localStorage w))
               (with_username None w)).
  assert (username w1 = None) as Hname.
  { unfold username, w1. simpl. by rewrite lookup_delete_eq. }
  rewrite set_state_username_choice_asks by (by rewrite Hname).
  pose proof (closeConnection_frame false (with_state (Some "username-choice") w1))
    as ((Hu & Hc & Hm & Hl) & Hst).
  pose proof (closeConnection_disconnects false
                (with_state (Some "username-choice") w1)) as Hdis.
  assert (∀ s, connected w s →
            closeConnection false (with_state (Some "username-choice") w1) =
              (Ok tt, with_socket None
                        (emit (SocketClose s)
                           (with_sockets (alter (set_readyState CLOSING) s (sockets w))
                              (with_state (Some "username-choice") w1)))))
    as Hclose.
  { intros s Hconn. by rewrite (closeConnection_open _ s). }
  assert ((∀ s, ¬ connected w s) →
            closeConnection false (with_state (Some "username-choice") w1) =
              (Ok tt, with_state (Some "username-choice") w1))
    as Hkeep.
  { intros Hno. by rewrite closeConnection_not_open. }
  set (w2 := (closeConnection false (with_state (Some "username-choice") w1)).2) in *.
  assert (∀ s, connected w s →
            socket w2 = None ∧
            sockets w2 = alter (set_readyState CLOSING) s (sockets w) ∧
            effects w2 = (effects w ++ [SocketClose s])%list) as Hclosed.
  { intros s Hconn. unfold w2. by rewrite (Hclose s Hconn). }
  assert ((∀ s, ¬ connected w s) →
            socket w2 = socket w ∧ sockets w2 = sockets w ∧ effects w2 = effects w)
    as Hkept.
  { intros Hno. unfold w2. by rewrite (Hkeep Hno). }
  clear Hclose Hkeep.
  simpl in *. split; [done|]. split; [done|]. split; [done|].
  assert (username
            (emit (ReplaceChildren UsernameChoiceMenu)
               (with_body (Some UsernameChoiceMenu)
                  (with_changeChannelButton true (with_messageListElement None w2))))
          = None) as Hname2.
  { rewrite <- Hname. unfold username. simpl. by rewrite Hu, Hl. }
  split; [exact Hname2|]. split; [exact Hl|]. do 2 (split; [done|]).
  split; [intros s [Hs Ho]; by apply (Hdis s)|].
  split.
  { intros s Hconn. destruct (Hclosed s Hconn) as (Hs2 & Hss2 & He2).
    rewrite Hs2, Hss2, He2. by rewrite <- app_assoc. }
  split.
  { intros Hno. destruct (Hkept Hno) as (Hs2 & Hss2 & He2).
    by rewrite Hs2, Hss2, He2. }
  do 2 (split; [done|]).
  unfold reload. simpl. rewrite Hl.
  pose proof (connectedCallback_new (delete "username" (localStorage w)))
    as (_ & _ & Hstate & _).
  rewrite lookup_delete_eq in Hstate. apply Hstate.
Qed.


Lemma forEach_stored_same_screen (l : list Message.t) :
  ∀ w : World, same_screen w (forEach_stored l w).2.
Proof.
  induction l as [|m l IH]; intros w; [apply same_screen_refl|].
  simpl. unfold push, appendChild. unfold_M.
  rewrite createMessageElement_rendered.
  destruct (rendered m) as [el|]; [|by repeat split].
  simpl. destruct (messageListElement w) as [els|] eqn:Hmle; [|by repeat split].
  eapply same_screen_trans; [|apply IH].
  repeat split; try done; simpl; intros _; rewrite ?Hmle; by eexists.
Qed.

Lemma handleOpen_same_screen (w : World) : same_screen w (handleOpen w).2.
Proof.
  unfold handleOpen. unfold_M. simpl.
  destruct (localStorage w !! channel w) as [text|]; [|by repeat split].
  destruct (JSON_parse text) as [l|]; [|by repeat split].
  eapply same_screen_trans; [|apply forEach_stored_same_screen].
  by repeat split.
Qed.

Lemma handleMessage_same_screen (payload : string) (w : World) :
  same_screen w (handleMessage payload w).2.
Proof.
  unfold handleMessage.
  destruct (JSON_parse_message payload) as [m|]; [|apply same_screen_refl].
  case_bool_decide; [|apply same_screen_refl].
  unfold push, persist, appendChild, scrollToBottom. unfold_M.
  rewrite createMessageElement_rendered.
  destruct (rendered m) as [el|]; [|by repeat split].
  simpl. destruct (messageListElement w) as [els|] eqn:Hmle; [|by repeat split].
  repeat split; try done; simpl; intros _; rewrite ?Hmle; by eexists.
Qed.

Lemma sendMessage_same_screen (data : string) (w : World) :
  same_screen w (sendMessage data w).2.
Proof.
  unfold sendMessage. destruct (socket w) as [s|]; [|by repeat split].
  destruct (is_OPEN w s); by repeat split.
Qed.

Lemma fire_screen (s : nat) (e : SocketEvent) (w w' : World) :
  screen_matches_state w → fire s e w = Some w' → screen_matches_state w'.
Proof.
  intros Hscreen. unfold fire.
  destruct (sockets w !! s) as [ws|]; [|done]. simpl.
  destruct e as [|payload| |], (readyState ws); intros [= <-].
  - eapply screen_matches_same_screen; [|apply handleOpen_same_screen]. done.
  - eapply screen_matches_same_screen; [|apply handleMessage_same_screen]. done.
  - done.
  - done.
  - done.
  - done.
  - done.
  - done.
Qed.

Lemma handleSubmit_screen (form : Form) (w : World) :
  screen_matches_state w → screen_matches_state (handleSubmit form w).2.
Proof.
  intros Hscreen. unfold handleSubmit. unfold_M. cbv beta iota.
  assert (screen_matches_state (emit PreventDefault w)) as Hscreen' by done.
  case_bool_decide; [by apply handleAuthFormSubmit_screen|].
  case_bool_decide; [by apply handleChannelChoiceFormSubmit_screen|].
  case_bool_decide; [|done].
  unfold handleMessageFormSubmit.
  destruct (FormData_get "message" (entries form)) as [text|]; [|done].
  destruct (truthy (Some text)); [|done]. unfold_M.
  pose proof (sendMessage_same_screen text (emit PreventDefault w)) as Hsame.
  destruct (sendMessage text (emit PreventDefault w)) as [[[]|e|] w1];
    simpl in Hsame |- *;
    (eapply screen_matches_same_screen; [exact Hscreen'|]);
    [|exact Hsame..].
  eapply same_screen_trans; [exact Hsame|]. by repeat split.
Qed.

Lemma step_screen (e : Event) (w w' : World) :
  screen_matches_state w → step e w = Some w' → screen_matches_state w'.
Proof.
  intros Hscreen. destruct e as [s e|action|form| |]; simpl.
  - by apply fire_screen.
  - intros [= <-]. by apply handleClick_screen.
  - intros [= <-]. by apply handleSubmit_screen.
  - intros [= <-].
    eapply screen_matches_same_screen; [|apply closeConnection_same_screen]. done.
  - intros [= <-].
    eapply screen_matches_same_screen; [|apply closeConnection_same_screen]. done.
Qed.

(** X15.  Once the element is connected, what is on screen agrees with the
    state after every run of the event loop, whatever the user and the
    sockets do: in 'chat' the chat body with a render target and an enabled
    Change Channel, in the other two states the matching form, no render
    target and a disabled Change Channel. *)
Theorem X15_screen_matches_state (es : list Event) :
  ∀ w w' : World,
    screen_matches_state w → steps es w = Some w' → screen_matches_state w'.
Proof.
  induction es as [|e es IH]; intros w w' Hscreen Hsteps.
  - injection Hsteps as <-. done.
  - simpl in Hsteps. destruct (step e w) as [w1|] eqn:Hstep; [|done].
    simpl in Hsteps. eapply IH; [|exact Hsteps]. by eapply step_screen.
Qed.

Lemma sendMessage_refused (data : string) (w : World) :
  (∀ s, ¬ connected w s) →
  sendMessage data w =
    (Ok tt, emit (ConsoleError "Cannot send message: WebSocket is not open.") w).
Proof.
  intros Hno. unfold sendMessage. destruct (socket w) as [s|] eqn:Hs; [|done].
  destruct (is_OPEN w s) eqn:Hopen; [|done].
  destruct (Hno s). split; [done|]. by apply is_OPEN_spec.
Qed.

Lemma sendMessage_sent (data : string) (w : World) (s : nat) :
  connected w s →
  sendMessage data w =
    (Ok tt, emit (SocketSend s (JSON_stringify_message (outbound data w))) w).
Proof.
  intros [Hs Hopen]. apply is_OPEN_spec in Hopen.
  unfold sendMessage. by rewrite Hs, Hopen.
Qed.

(** X16.  The close event of any socket, also of one that the controller
    has replaced since, makes it store the log with the disconnect notice
    under the current channel, empty the log and drop its socket
    reference: sendMessage then refuses to send, whatever sockets are
    open. *)
Theorem X16_any_close_drops_connection (s : nat) (w w' : World) :
  fire s on_close w = Some w' →
  socket w' = None ∧ messages w' = [] ∧ channel w' = channel w ∧
  localStorage w' =
    <[channel w := JSON_stringify (messages w ++ [disconnect_notice])%list]>
      (localStorage w) ∧
  readyState <$> sockets w' !! s = Some CLOSED ∧
  (∀ s', s' ≠ s → sockets w' !! s' = sockets w !! s') ∧
  ∀ data, sendMessage data w' =
            (Ok tt, emit (ConsoleError "Cannot send message: WebSocket is not open.") w').
Proof.
  unfold fire. destruct (sockets w !! s) as [ws|] eqn:Hws; [|done]. simpl.
  intros Hfire.
  assert (w' = (handleClose
                  (with_sockets (alter (set_readyState CLOSED) s (sockets w)) w)).2)
    as ->.
  { destruct (readyState ws); first [discriminate Hfire | by injection Hfire as <-]. }
  rewrite handleClose_spec. simpl. do 4 (split; [done|]).
  split; [by rewrite list_lookup_alter_eq, Hws|].
  split; [intros s' Hne; by rewrite list_lookup_alter_ne|].
  intros data. by apply sendMessage_refused; intros s0 [[=] _].
Qed.

(** X17.  A connection that closes without having opened costs the
    channel its stored history: the log in memory is still empty, so
    handleClose stores the disconnect notice alone over whatever the
    channel had, and the next connection to that channel replays only the
    notice. *)
Theorem X17_failed_connection_overwrites_history (w : World) (s : nat)
    (ch history : string) :
  socket w = Some s → readyState <$> sockets w !! s = Some CONNECTING →
  channel w = ch → ch ≠ "" → messages w = [] →
  localStorage w !! ch = Some history →
  JSON_parse (JSON_stringify [disconnect_notice]) = Some [disconnect_notice] →
  ∃ w2 w5 : World,
    steps [SocketEv s on_error; SocketEv s on_close] w = Some w2 ∧
    localStorage w2 !! ch = Some (JSON_stringify [disconnect_notice]) ∧
    steps [Click (Some "change-channel"); Submit (channel_form ch);
           SocketEv (length (sockets w)) on_open] w2 = Some w5 ∧
    messages w5 = [disconnect_notice] ∧
    messageListElement w5 = Some [ServerMessage (Some "You are disconnected!")].
Proof.
  intros Hs Hconn Hch Hne Hlog Hhist Hjson.
  destruct (sockets w !! s) as [ws|] eqn:Hws; [|done].
  simpl in Hconn. injection Hconn as Hconn.
  destruct w as [st un so chn msgs mle btn bd ls socks effs].
  simpl in *. subst so chn msgs.
  eexists _, _. split.
  { simpl. unfold fire. simpl. rewrite Hws. simpl. rewrite Hconn. simpl.
    rewrite Hws. simpl. rewrite Hconn.
    unfold handleClose, push, persist. unfold_M. norm_world. reflexivity. }
  norm_world. rewrite lookup_insert_eq. split; [reflexivity|].
  unfold steps, step.
  rewrite handleClick_change_channel, set_state_channel_choice
    by (intros s0 [[=] _]).
  unfold snd at 2. simpl. unfold channel_form.
  rewrite ChatSpec.handleSubmit_channel_form.
  rewrite (handleChannelChoiceFormSubmit_accepts _ ch) by done.
  rewrite set_state_chat by (intros s0 [[=] _]).
  norm_world. unfold fire. cbn [snd]. norm_world.
  rewrite lookup_app_r by (by rewrite length_alter).
  rewrite length_alter, Nat.sub_diag. simpl.
  erewrite (handleOpen_replays _ _ _ []);
    [| |exact Hjson|reflexivity|reflexivity].
  - norm_world. by repeat split.
  - norm_world. apply lookup_insert_eq.
Qed.

(** X18.  handleOpen only reads localStorage.  For a channel without an
    entry it does nothing but log; on a text that does not parse it throws
    and leaves the log alone; otherwise it appends a prefix of the stored
    log to the log in memory, without clearing what is there.  When no chat
    body is shown it throws a TypeError with the first stored message
    already logged. *)
Theorem X18_handleOpen_only_appends (w : World) :
  (localStorage (handleOpen w).2 = localStorage w ∧
   channel (handleOpen w).2 = channel w ∧ socket (handleOpen w).2 = socket w) ∧
  (localStorage w !! channel w = None →
   handleOpen w =
     (Ok tt, emit (ConsoleLog "Connection with the server established.") w)) ∧
  (∀ text, localStorage w !! channel w = Some text → JSON_parse text = None →
     handleOpen w =
       (Throw SyntaxError,
        emit (ConsoleLog "Connection with the server established.") w)) ∧
  (∀ text l, localStorage w !! channel w = Some text → JSON_parse text = Some l →
     ∃ k, messages (handleOpen w).2 = (messages w ++ take k l)%list) ∧
  (∀ text m l el,
     localStorage w !! channel w = Some text → JSON_parse text = Some (m :: l) →
     rendered m = Some el → messageListElement w = None →
     (handleOpen w).1 = Throw TypeError ∧
     messages (handleOpen w).2 = (messages w ++ [m])%list).
Proof.
  unfold handleOpen. unfold_M. simpl.
  destruct (localStorage w !! channel w) as [text|] eqn:Htext.
  - destruct (JSON_parse text) as [l|] eqn:Hparse.
    + match goal with |- context [forEach_stored l ?w1] =>
        destruct (forEach_stored_frame l w1) as (Hl & Hc & Hs & _ & k & Hm) end.
      split; [by rewrite Hl, Hc, Hs|]. split; [done|].
      split; [intros text' [= <-]; congruence|].
      split.
      * intros text' l' [= <-] Hparse'. exists k.
        assert (l' = l) as -> by congruence. exact Hm.
      * intros text' m l' el [= <-] Hparse' Hel Hmle.
        assert (l = m :: l') as -> by congruence.
        simpl. unfold push, appendChild. unfold_M.
        rewrite createMessageElement_rendered, Hel. simpl. by rewrite Hmle.
    + split; [done|]. split; [done|]. split; [done|].
      split; intros; simplify_eq.
  - split; [done|]. split; [done|]. split; [done|]. split; intros; simplify_eq.
Qed.

(** X19.  A channel called username shares its localStorage key with the
    remembered identity.  After a message on that channel the next page
    load takes the text of the channel log for the username and skips the
    username form; and Change Username deletes the log of that channel. *)
Theorem X19_channel_named_username (payload : string) (m : Message.t)
    (w : World) :
  channel w = "username" →
  JSON_parse_message payload = Some m → Message.type m ≠ Some "heartbeat" →
  JSON_stringify (messages w ++ [m])%list ≠ "" →
  localStorage (handleMessage payload w).2 !! "username"
    = Some (JSON_stringify (messages w ++ [m])%list) ∧
  username (connectedCallback (reload (handleMessage payload w).2)).2
    = Some (JSON_stringify (messages w ++ [m])%list) ∧
  _state (connectedCallback (reload (handleMessage payload w).2)).2
    = Some "channel-choice" ∧
  localStorage (handleClick (Some "change-username") (handleMessage payload w).2).2
    !! channel w = None.
Proof.
  intros Hch Hparse Hty Hne.
  destruct (handleMessage_log payload m w Hparse Hty) as (_ & _ & Hl).
  rewrite Hch in Hl.
  assert (localStorage (handleMessage payload w).2 !! "username"
          = Some (JSON_stringify (messages w ++ [m])%list)) as Hkey.
  { by rewrite Hl, lookup_insert_eq. }
  assert (truthy (Some (JSON_stringify (messages w ++ [m])%list)) = true) as Ht.
  { unfold truthy. by rewrite bool_decide_eq_false_2. }
  split; [exact Hkey|].
  pose proof (connectedCallback_new (localStorage (handleMessage payload w).2))
    as (_ & Hname & Hstate & _).
  rewrite Hkey in Hname, Hstate. rewrite Ht in Hstate.
  unfold reload. split; [|split; [apply Hstate|]].
  - rewrite Hname. unfold js_or. by rewrite Ht.
  - destruct (change_username_spec (handleMessage payload w).2)
      as (_ & _ & _ & _ & Hdel & _).
    by rewrite Hdel, Hch, lookup_delete_eq.
Qed.

(** X20.  A non-empty message, also one of whitespace only, goes to
    sendMessage and the input field is cleared afterwards in either case:
    with an open connection the message is sent once; without one it is
    only reported on the console and lost. *)
Theorem X20_message_form_always_clears (form : Form) (text : string)
    (w : World) :
  FormData_get "message" (entries form) = Some text → text ≠ "" →
  ((∀ s, ¬ connected w s) →
   handleMessageFormSubmit form w =
     (Ok tt,
      emit ClearInputField
        (emit (ConsoleError "Cannot send message: WebSocket is not open.") w))) ∧
  (∀ s, connected w s →
   handleMessageFormSubmit form w =
     (Ok tt,
      emit ClearInputField
        (emit (SocketSend s (JSON_stringify_message (outbound text w))) w))).
Proof.
  intros Hget Hne. unfold handleMessageFormSubmit. rewrite Hget.
  unfold truthy. rewrite bool_decide_eq_false_2 by done. simpl. unfold_M.
  split.
  - intros Hno. by rewrite sendMessage_refused.
  - intros s Hconn. by rewrite (sendMessage_sent text w s).
Qed.

(** X21.  closeConnection, which also serves disconnectedCallback and
    beforeunload, leaves no open connection behind and is a no-op when
    called again.  Given an open socket it calls close on it once, after
    preventDefault when it was called with an event, and forgets it;
    given none it does nothing. *)
Theorem X21_closeConnection_disconnects (event : bool) (w : World) :
  (∀ s, ¬ connected (closeConnection event w).2 s) ∧
  (∀ event', closeConnection event' (closeConnection event w).2
               = (Ok tt, (closeConnection event w).2)) ∧
  (∀ s, connected w s →
     effects (closeConnection event w).2 =
       (effects w ++ (if event then [PreventDefault] else []) ++ [SocketClose s])%list ∧
     readyState <$> sockets (closeConnection event w).2 !! s = Some CLOSING ∧
     socket (closeConnection event w).2 = None) ∧
  ((∀ s, ¬ connected w s) → closeConnection event w = (Ok tt, w)).
Proof.
  split; [apply closeConnection_disconnects|].
  split; [intros event'; apply closeConnection_not_open,
            closeConnection_disconnects|].
  split; [|apply closeConnection_not_open].
  intros s [Hs Hopen]. pose proof Hopen as Hopen'. apply is_OPEN_spec in Hopen'.
  unfold closeConnection. rewrite Hs, Hopen'.
  destruct (sockets w !! s) as [ws|] eqn:Hws; [|done].
  destruct event; simpl; rewrite list_lookup_alter_eq, Hws, <- ?app_assoc; done.
Qed.

(** X22.  A transition out of a session whose socket is open calls close
    on that socket before it renders the new body, and only then creates
    the next socket: on the way to the chat the old socket is closing and
    the controller holds a new one, still connecting; on the way to the
    channel form it holds none. *)
Theorem X22_open_socket_closed_before_render (w : World) (s : nat) :
  connected w s →
  (effects (set_state "chat" w).2 =
     (effects w ++ [SocketClose s; ReplaceChildren Chat;
                    NewWebSocket (length (sockets w))])%list ∧
   readyState <$> sockets (set_state "chat" w).2 !! s = Some CLOSING ∧
   socket (set_state "chat" w).2 = Some (length (sockets w)) ∧
   readyState <$> sockets (set_state "chat" w).2 !! length (sockets w)
     = Some CONNECTING ∧
   s ≠ length (sockets w)) ∧
  (effects (set_state "channel-choice" w).2 =
     (effects w ++ [SocketClose s; ReplaceChildren ChannelChoiceMenu])%list ∧
   readyState <$> sockets (set_state "channel-choice" w).2 !! s = Some CLOSING ∧
   socket (set_state "channel-choice" w).2 = None).
Proof.
  intros Hconn. pose proof Hconn as [Hs Hopen].
  destruct (sockets w !! s) as [ws|] eqn:Hws; [|done].
  assert (s < length (sockets w)) as Hlt by (by eapply lookup_lt_Some).
  split.
  - destruct (set_state_chat_closes_first w s Hconn) as [Heff Hclosing].
    split; [exact Heff|]. split; [exact Hclosing|].
    unfold set_state. simpl. unfold_M.
    rewrite (closeConnection_open (with_state (Some "chat") w) s) by done.
    simpl. rewrite length_alter. split; [done|].
    split; [|lia].
    rewrite lookup_app_r by (by rewrite length_alter).
    by rewrite length_alter, Nat.sub_diag.
  - unfold set_state. simpl. unfold_M.
    rewrite (closeConnection_open (with_state (Some "channel-choice") w) s) by done.
    simpl. rewrite <- app_assoc. split; [done|].
    by rewrite list_lookup_alter_eq, Hws.
Qed.

End WithJSON.

(** *** Closed instances, over the example JSON format *)

Import ExampleJSON.

Lemma X12_login_flow_witness :
  let w3 := (handleSubmit (channel_form "lobby")
               (handleSubmit (auth_form "al" false)
                  (connectedCallback (new_ChatApp ∅)).2).2).2 in
  _state w3 = Some "chat" ∧ channel w3 = "lobby" ∧ username w3 = Some "al" ∧
  localStorage w3 = ∅.
Proof.
  pose proof (X12_login_flow ∅ "al" "lobby" false) as Hflow. cbv zeta in Hflow.
  destruct Hflow as (_ & Hst & Hch & Hu & _ & _ & _ & _ & Hl & _);
    [reflexivity | discriminate | discriminate |].
  by repeat split.
Defined.

Lemma X13_remembered_username_survives_reload_witness :
  let w' := (handleSubmit (auth_form "al" true) (connectedCallback (new_ChatApp ∅)).2).2 in
  localStorage w' = <["username" := "al"]> ∅ ∧
  _state (connectedCallback (reload w')).2 = Some "channel-choice" ∧
  username (connectedCallback (reload w')).2 = Some "al".
Proof.
  apply (proj1 (X13_remembered_username_survives_reload "al" true
                  (connectedCallback (new_ChatApp ∅)).2 ltac:(discriminate)) eq_refl).
Defined.


Lemma X15_screen_matches_state_witness :
  screen_matches_state on_username_channel.
Proof.
  apply (X15_screen_matches_state
           [Click (Some "change-channel");
            Submit (mkForm "channel-form" [("channel", "username")]);
            SocketEv 1 on_open] chatting on_username_channel).
  - left. split; [by vm_compute|]. split; [by vm_compute|].
    split; [|by vm_compute]. exists []. by vm_compute.
  - by vm_compute.
Defined.

Lemma X16_any_close_drops_connection_witness :
  let w' := default switched (fire 0 on_close switched) in
  readyState <$> sockets switched !! 1 = Some OPEN ∧ socket switched = Some 1 ∧
  socket w' = None ∧ readyState <$> sockets w' !! 1 = Some OPEN ∧
  sendMessage "hi" w' =
    (Ok tt, emit (ConsoleError "Cannot send message: WebSocket is not open.") w').
Proof.
  split; [by vm_compute|]. split; [by vm_compute|].
  destruct (X16_any_close_drops_connection 0 switched
              (default switched (fire 0 on_close switched)))
    as (Hs & _ & _ & _ & _ & Hother & Hsend); [by vm_compute|].
  split; [exact Hs|]. split; [|apply Hsend].
  rewrite (Hother 1) by discriminate. by vm_compute.
Defined.

Lemma X17_failed_connection_overwrites_history_witness :
  localStorage returning !! "c" = Some (JSON_stringify [m1; m2]) ∧
  ∃ w2 w5 : World,
    steps [SocketEv 0 on_error; SocketEv 0 on_close] returning = Some w2 ∧
    localStorage w2 !! "c" = Some (JSON_stringify [disconnect_notice]) ∧
    steps [Click (Some "change-channel"); Submit (channel_form "c");
           SocketEv (length (sockets returning)) on_open] w2 = Some w5 ∧
    messages w5 = [disconnect_notice] ∧
    messageListElement w5 = Some [ServerMessage (Some "You are disconnected!")].
Proof.
  split; [by vm_compute|].
  apply (X17_failed_connection_overwrites_history returning 0 "c"
           (JSON_stringify [m1; m2])); by vm_compute.
Defined.

Lemma X18_handleOpen_only_appends_witness :
  let w := (handleClick (Some "change-channel")
              (handleMessage (JSON_stringify_message m1) chatting).2).2 in
  (handleOpen w).1 = Throw TypeError ∧
  messages (handleOpen w).2 = (messages w ++ [m1])%list.
Proof.
  apply (proj2 (proj2 (proj2 (proj2 (X18_handleOpen_only_appends
           (handleClick (Some "change-channel")
              (handleMessage (JSON_stringify_message m1) chatting).2).2))))
           (JSON_stringify [m1]) m1 [] (UserMessage "al:" (Some "hello")));
    by vm_compute.
Defined.

Lemma X19_channel_named_username_witness :
  let w' := (handleMessage (JSON_stringify_message m1) on_username_channel).2 in
  localStorage w' !! "username"
    = Some (JSON_stringify (messages on_username_channel ++ [m1])%list) ∧
  username (connectedCallback (reload w')).2
    = Some (JSON_stringify (messages on_username_channel ++ [m1])%list) ∧
  _state (connectedCallback (reload w')).2 = Some "channel-choice" ∧
  localStorage (handleClick (Some "change-username") w').2
    !! channel on_username_channel = None.
Proof.
  apply (X19_channel_named_username (JSON_stringify_message m1) m1
           on_username_channel); by vm_compute.
Defined.

Lemma X20_message_form_always_clears_witness :
  handleMessageFormSubmit (mkForm "message-form" [("message", " ")]) connecting =
    (Ok tt,
     emit ClearInputField
       (emit (ConsoleError "Cannot send message: WebSocket is not open.") connecting)) ∧
  handleMessageFormSubmit (mkForm "message-form" [("message", " ")]) chatting =
    (Ok tt,
     emit ClearInputField
       (emit (SocketSend 0 (JSON_stringify_message (outbound " " chatting))) chatting)).
Proof.
  split.
  - apply (proj1 (X20_message_form_always_clears
             (mkForm "message-form" [("message", " ")]) " " connecting
             eq_refl ltac:(discriminate))).
    intros s [Hs Hopen]. vm_compute in Hs. injection Hs as <-.
    vm_compute in Hopen. discriminate Hopen.
  - apply (proj2 (X20_message_form_always_clears
             (mkForm "message-form" [("message", " ")]) " " chatting
             eq_refl ltac:(discriminate)) 0).
    split; by vm_compute.
Defined.

Lemma X21_closeConnection_disconnects_witness :
  effects (closeConnection true chatting).2 =
    (effects chatting ++ [PreventDefault] ++ [SocketClose 0])%list ∧
  readyState <$> sockets (closeConnection true chatting).2 !! 0 = Some CLOSING ∧
  socket (closeConnection true chatting).2 = None.
Proof.
  apply (proj1 (proj2 (proj2 (X21_closeConnection_disconnects true chatting))) 0).
  split; by vm_compute.
Defined.

Lemma X22_open_socket_closed_before_render_witness :
  effects (set_state "channel-choice" chatting).2 =
    (effects chatting ++ [SocketClose 0; ReplaceChildren ChannelChoiceMenu])%list ∧
  readyState <$> sockets (set_state "channel-choice" chatting).2 !! 0 = Some CLOSING ∧
  socket (set_state "channel-choice" chatting).2 = None.
Proof.
  apply (proj2 (X22_open_socket_closed_before_render chatting 0
                  ltac:(split; by vm_compute))).
Defined.

End ChatMore.
